(** * Witti: the Gemini answer service (src/services/geminiService.ts)

    A shallow embedding of the module that owns the Gemini client: the
    module-level initializer, the prompt builder [createShortHumorousPrompt],
    the provider call with its error classification [callGeminiAPI] and the
    exported [generateShortWittiHumorousAnswer].

    Conventions of the embedding.
    - A JavaScript string is a [string] of the Standard Library; each
      character stands for one UTF-16 code unit in the range U+0000..U+00FF.
      On that range [trim] and [toLowerCase] below are the ECMAScript ones.
    - The two module-level [let] variables are the fields of [Module]; every
      computation threads them, together with the log of observable effects
      (console output and calls of the provider).
    - An [await] is the point where the provider's answer is obtained; a
      rejected promise is an abrupt completion carrying the rejection value. *)

From Stdlib Require Import String Ascii List ZArith Bool Lia.
From Stdlib Require Import DecimalString.
Import ListNotations.

Local Open Scope string_scope.
Local Open Scope bool_scope.
Local Open Scope nat_scope.

(** ** JavaScript strings *)

Module JsString.

Definition code (c : ascii) : nat := nat_of_ascii c.

(** WhiteSpace and LineTerminator code points below U+0100: TAB, LF, VT,
    FF, CR, SPACE and NO-BREAK SPACE. *)
Definition isWhiteSpace (c : ascii) : bool :=
  let n := code c in
  ((9 <=? n) && (n <=? 13)) || (n =? 32) || (n =? 160).

(** [String.prototype.toLowerCase], one code unit at a time: A..Z and the
    Latin-1 capitals U+00C0..U+00DE (without the multiplication sign
    U+00D7) move up by 32; every other code unit below U+0100 is fixed. *)
Definition lowerChar (c : ascii) : ascii :=
  let n := code c in
  if ((65 <=? n) && (n <=? 90))
     || ((192 <=? n) && (n <=? 222) && negb (n =? 215))
  then ascii_of_nat (n + 32)
  else c.

Fixpoint toLowerCase (s : string) : string :=
  match s with
  | EmptyString => EmptyString
  | String c s' => String (lowerChar c) (toLowerCase s')
  end.

Fixpoint startsWith (pat s : string) : bool :=
  match pat, s with
  | EmptyString, _ => true
  | String _ _, EmptyString => false
  | String a pat', String b s' => Ascii.eqb a b && startsWith pat' s'
  end.

(** [s.includes(pat)]: [pat] occurs in [s] at some position. *)
Fixpoint includes (s pat : string) : bool :=
  startsWith pat s ||
  match s with
  | EmptyString => false
  | String _ s' => includes s' pat
  end.

Fixpoint trimStart (s : string) : string :=
  match s with
  | EmptyString => EmptyString
  | String c s' => if isWhiteSpace c then trimStart s' else s
  end.

(** The trailing run of white space is dropped from the right: a white
    space character is kept exactly when something is kept after it. *)
Fixpoint trimEnd (s : string) : string :=
  match s with
  | EmptyString => EmptyString
  | String c s' =>
      match trimEnd s' with
      | EmptyString => if isWhiteSpace c then EmptyString
                       else String c EmptyString
      | t => String c t
      end
  end.

Definition trim (s : string) : string := trimEnd (trimStart s).

(** Every character of [s] is white space. *)
Fixpoint allWhiteSpace (s : string) : bool :=
  match s with
  | EmptyString => true
  | String c s' => isWhiteSpace c && allWhiteSpace s'
  end.

Definition firstChar (s : string) : option ascii :=
  match s with
  | EmptyString => None
  | String c _ => Some c
  end.

Fixpoint lastChar (s : string) : option ascii :=
  match s with
  | EmptyString => None
  | String c EmptyString => Some c
  | String _ s' => lastChar s'
  end.

Definition isEmpty (s : string) : bool :=
  match s with
  | EmptyString => true
  | String _ _ => false
  end.

Definition edgeIsWhiteSpace (o : option ascii) : bool :=
  match o with
  | None => false
  | Some c => isWhiteSpace c
  end.

End JsString.

(** ** JavaScript numbers *)

(** [Number.prototype.toString] on integers, as [String(n)] uses it. *)

Module JsNumber.

Local Open Scope Z_scope.

(** The decimal numeral of a non-negative integer. *)
Definition decimal (a : Z) : string :=
  NilEmpty.string_of_int (Z.to_int a).

Definition digitCount (a : Z) : Z := Z.of_nat (String.length (decimal a)).

(** The Number nearest to the non-negative integer [a]: [a] itself up to
    2^53, and beyond that [a] rounded to 53 significant bits, ties to the
    even mantissa; from 2^1024 on it stands for Infinity. *)
Definition roundToDouble (a : Z) : Z :=
  if a <? 2 ^ 53 then a
  else
    let e := Z.log2 a - 52 in
    let q := Z.shiftr a e in
    let r := a - Z.shiftl q e in
    let half := Z.shiftl 1 (e - 1) in
    let q' := if (half <? r) || ((r =? half) && Z.odd q) then q + 1 else q in
    Z.shiftl q' e.

(** The integer with at most [k] significant digits that reads back as the
    Number [x], if there is one: the closest to [x], and of two equally
    close the one whose digits are even. *)
Definition candidate (x k : Z) : option Z :=
  let u := 10 ^ Z.max 0 (digitCount x - k) in
  let lo := (x / u) * u in
  let hi := lo + u in
  let okLo := roundToDouble lo =? x in
  let okHi := roundToDouble hi =? x in
  if okLo && okHi then
    if x - lo <? hi - x then Some lo
    else if hi - x <? x - lo then Some hi
    else if Z.even (x / u) then Some lo
    else Some hi
  else if okLo then Some lo
  else if okHi then Some hi
  else None.

Fixpoint shortestFrom (x k : Z) (fuel : nat) : Z :=
  match fuel with
  | O => x
  | S fuel' =>
      match candidate x k with
      | Some v => v
      | None => shortestFrom x (k + 1) fuel'
      end
  end.

(** The integer with the fewest significant digits that reads back as
    [x]; seventeen digits always suffice. *)
Definition shortest (x : Z) : Z := shortestFrom x 1 17.

Fixpoint stripTrailingZeros (s : string) : string :=
  match s with
  | EmptyString => EmptyString
  | String c s' =>
      match stripTrailingZeros s' with
      | EmptyString => if Ascii.eqb c "0"%char then EmptyString
                       else String c EmptyString
      | t => String c t
      end
  end.

(** Number::toString for a positive integer: the numeral of the shortest
    reading when it has at most 21 digits, and otherwise its first digit, a
    point and the further digits if there are any, and the exponent (so
    [String(1e21)] is [1e+21]). *)
Definition printPositive (a : Z) : string :=
  let numeral := decimal (shortest (roundToDouble a)) in
  let n := Z.of_nat (String.length numeral) in
  if 2 ^ 1024 <=? roundToDouble a then "Infinity"%string
  else if n <=? 21 then numeral
  else
    match stripTrailingZeros numeral with
    | EmptyString => numeral
    | String c EmptyString =>
        (String c EmptyString ++ "e+" ++ decimal (n - 1))%string
    | String c rest =>
        (String c EmptyString ++ "." ++ rest ++ "e+" ++ decimal (n - 1))%string
    end.

Definition toString (z : Z) : string :=
  match z with
  | Z0 => "0"%string
  | Zpos _ => printPositive z
  | Zneg p => ("-" ++ printPositive (Zpos p))%string
  end.

End JsNumber.

Arguments JsNumber.toString : simpl never.

(** ** JavaScript values *)

(** Primitive values.  [PNum z] is the integer-valued number [z], an
    integer that a Number holds exactly (every integer up to 2^53 in
    absolute value, and the multiples of the right power of 2 beyond);
    [PNaN] is the number NaN. *)
Inductive Prim : Type :=
| PUndefined
| PNull
| PBool (b : bool)
| PNum (z : Z)
| PNaN
| PStr (s : string).

(** The classes of objects the module can tell apart ([instanceof Error]). *)
Inductive ObjClass : Type :=
| PlainObject
| ErrorClass
| TypeErrorClass.

(** A value is a primitive or an object.  Of an object only its class and
    its own [message] property are kept ([None]: no own property); the
    property holds a primitive. *)
Inductive JsVal : Type :=
| VPrim (p : Prim)
| VObj (cls : ObjClass) (message : option Prim).

Definition undefined : JsVal := VPrim PUndefined.
Definition null : JsVal := VPrim PNull.
Definition str (s : string) : JsVal := VPrim (PStr s).

Definition typeofPrim (p : Prim) : string :=
  match p with
  | PUndefined => "undefined"
  | PNull => "object"
  | PBool _ => "boolean"
  | PNum _ | PNaN => "number"
  | PStr _ => "string"
  end.

Definition typeof (v : JsVal) : string :=
  match v with
  | VPrim p => typeofPrim p
  | VObj _ _ => "object"
  end.

(** [typeof v === 'string'], giving the string when it is one. *)
Definition asString (v : JsVal) : option string :=
  match v with
  | VPrim (PStr s) => Some s
  | _ => None
  end.

(** ToBoolean. *)
Definition truthyPrim (p : Prim) : bool :=
  match p with
  | PUndefined | PNull | PNaN => false
  | PBool b => b
  | PNum z => negb (Z.eqb z 0)
  | PStr s => negb (JsString.isEmpty s)
  end.

Definition truthy (v : JsVal) : bool :=
  match v with
  | VPrim p => truthyPrim p
  | VObj _ _ => true
  end.

(** [String(p)]; a number is printed as the engine prints it, in plain
    decimal below 1e21 and with an exponent from there on. *)
Definition ToString (p : Prim) : string :=
  match p with
  | PUndefined => "undefined"
  | PNull => "null"
  | PBool true => "true"
  | PBool false => "false"
  | PNum z => JsNumber.toString z
  | PNaN => "NaN"
  | PStr s => s
  end.

(** [a || b] on primitives. *)
Definition orElse (a b : Prim) : Prim := if truthyPrim a then a else b.

Definition primStrictEquals (a b : Prim) : bool :=
  match a, b with
  | PUndefined, PUndefined => true
  | PNull, PNull => true
  | PBool x, PBool y => Bool.eqb x y
  | PNum x, PNum y => Z.eqb x y
  | PStr x, PStr y => String.eqb x y
  | _, _ => false
  end.

Definition classEquals (a b : ObjClass) : bool :=
  match a, b with
  | PlainObject, PlainObject => true
  | ErrorClass, ErrorClass => true
  | TypeErrorClass, TypeErrorClass => true
  | _, _ => false
  end.

Definition optionPrimEquals (a b : option Prim) : bool :=
  match a, b with
  | None, None => true
  | Some x, Some y =>
      match x, y with
      | PNaN, PNaN => true
      | _, _ => primStrictEquals x y
      end
  | _, _ => false
  end.

(** [a === b].  Objects are compared by reference in JavaScript; the module
    compares the caught value with [apiKeyInitializationError] only, which
    at that point is [null] or the very object that was thrown, so that
    comparing the two descriptions decides the same. *)
Definition strictEquals (a b : JsVal) : bool :=
  match a, b with
  | VPrim p, VPrim q => primStrictEquals p q
  | VObj c m, VObj c' m' => classEquals c c' && optionPrimEquals m m'
  | _, _ => false
  end.

(** [v instanceof Error]. *)
Definition instanceofError (v : JsVal) : bool :=
  match v with
  | VObj ErrorClass _ | VObj TypeErrorClass _ => true
  | _ => false
  end.

(** What the runtime itself can throw in this module. *)
Inductive Fault : Type :=
| ReadOfNullish (base : Prim) (prop : string)
| NotAFunction (callee : string).

(** [v.message]: the value read, or the fault when the base is [undefined]
    or [null].  A primitive has no such property; an object without one of
    its own finds the empty string of [Error.prototype] when it is an
    error. *)
Definition getMessage (v : JsVal) : Prim + Fault :=
  match v with
  | VPrim PUndefined => inr (ReadOfNullish PUndefined "message")
  | VPrim PNull => inr (ReadOfNullish PNull "message")
  | VPrim _ => inl PUndefined
  | VObj _ (Some m) => inl m
  | VObj PlainObject None => inl PUndefined
  | VObj _ None => inl (PStr EmptyString)
  end.

(** [new Error(m)]: the own [message] is [String(m)] unless [m] is
    [undefined]. *)
Definition newError (m : Prim) : JsVal :=
  match m with
  | PUndefined => VObj ErrorClass None
  | _ => VObj ErrorClass (Some (PStr (ToString m)))
  end.

(** ** The environment of the module *)

(** The global [process] as line 11 sees it. *)
Inductive ProcessGlobal : Type :=
| ProcessUndefined
| ProcessWithoutEnv
| ProcessEnv (API_KEY : JsVal).

(** The client made by [new GoogleGenAI({ apiKey })]. *)
Record GoogleGenAI : Type := { apiKey : string }.

Record GenerateContentParameters : Type :=
  { model : string; contents : string }.

Record GenerateContentResponse : Type := { text : JsVal }.

(** How the promise of [generateContent] settles. *)
Inductive Settled : Type :=
| Fulfilled (response : GenerateContentResponse)
| Rejected (reason : JsVal).

(** ** Effects *)

Inductive Event : Type :=
| ConsoleError (args : list JsVal)
| ConsoleWarn (args : list JsVal)
| ProviderCall (client : GoogleGenAI) (params : GenerateContentParameters).

(** The module-level variables [ai] and [apiKeyInitializationError]. *)
Record Module : Type :=
  { ai : option GoogleGenAI; apiKeyInitializationError : JsVal }.

Inductive Completion (A : Type) : Type :=
| Normal (a : A)
| Throw (v : JsVal).
Arguments Normal {A} a.
Arguments Throw {A} v.

Record Run (A : Type) : Type :=
  { outcome : Completion A; final : Module; log : list Event }.
Arguments outcome {A} r.
Arguments final {A} r.
Arguments log {A} r.

Definition Eff (A : Type) : Type := Module -> Run A.

Definition ret {A : Type} (a : A) : Eff A :=
  fun m => {| outcome := Normal a; final := m; log := [] |}.

Definition throw {A : Type} (v : JsVal) : Eff A :=
  fun m => {| outcome := Throw v; final := m; log := [] |}.

(** The events of [l] happened before the run [r]. *)
Definition after {A : Type} (l : list Event) (r : Run A) : Run A :=
  match r with
  | {| outcome := o; final := m; log := l' |} =>
      {| outcome := o; final := m; log := (l ++ l')%list |}
  end.

Definition bind {A B : Type} (c : Eff A) (k : A -> Eff B) : Eff B :=
  fun m =>
    match c m with
    | {| outcome := Normal a; final := m'; log := l |} => after l (k a m')
    | {| outcome := Throw v; final := m'; log := l |} =>
        {| outcome := Throw v; final := m'; log := l |}
    end.

(** [try { c } catch (e) { h e }]. *)
Definition tryCatch {A : Type} (c : Eff A) (h : JsVal -> Eff A) : Eff A :=
  fun m =>
    match c m with
    | {| outcome := Normal a; final := m'; log := l |} =>
        {| outcome := Normal a; final := m'; log := l |}
    | {| outcome := Throw e; final := m'; log := l |} => after l (h e m')
    end.

Definition emit (e : Event) : Eff unit :=
  fun m => {| outcome := Normal tt; final := m; log := [e] |}.

Definition readAi : Eff (option GoogleGenAI) :=
  fun m => {| outcome := Normal (ai m); final := m; log := [] |}.

Definition readInitError : Eff JsVal :=
  fun m => {| outcome := Normal (apiKeyInitializationError m);
              final := m; log := [] |}.

Definition writeAi (c : GoogleGenAI) : Eff unit :=
  fun m => {| outcome := Normal tt;
              final := {| ai := Some c;
                          apiKeyInitializationError :=
                            apiKeyInitializationError m |};
              log := [] |}.

Definition writeInitError (e : JsVal) : Eff unit :=
  fun m => {| outcome := Normal tt;
              final := {| ai := ai m; apiKeyInitializationError := e |};
              log := [] |}.

Declare Scope eff_scope.
Delimit Scope eff_scope with eff.
Notation "x <- c ;; k" := (bind c (fun x => k))
  (at level 61, c at next level, right associativity) : eff_scope.
Notation "c ;; k" := (bind c (fun _ => k))
  (at level 61, right associativity) : eff_scope.
Local Open Scope eff_scope.

(** ** The module *)

Definition dq : string := String "034"%char EmptyString.
Definition nl : string := String "010"%char EmptyString.

Definition MSG_KEY_MISSING : string :=
  "Gemini API Key (process.env.API_KEY) is missing, not a string, or empty. "
  ++ "Please ensure it is configured in the environment.".

Definition MSG_INIT_UNEXPECTED : string :=
  "An unexpected error occurred during GoogleGenAI initialization.".

Definition MSG_NOT_INITIALIZED : string :=
  "Gemini AI client is not initialized. This may be due to a missing or "
  ++ "invalid API key, or an initialization error.".

Definition MSG_NOT_TEXT : string :=
  "The AI's response was not in the expected text format.".

Definition MSG_INVALID_KEY : string :=
  "Gemini API Key is invalid or lacks permissions. "
  ++ "Please check your API_KEY and project settings.".

Definition MSG_QUOTA : string :=
  "API quota exceeded. "
  ++ "Please check your Gemini project quota or try again later.".

Definition MSG_MODEL_NOT_FOUND : string :=
  "The specified AI model was not found. Please check the model name.".

Definition MSG_COMMUNICATION : string :=
  "Failed to generate answer due to an API communication error.".

Definition MODEL_ID : string := "gemini-2.5-flash-preview-04-17".

(** The template literal of [createShortHumorousPrompt], before and after
    [${question}]. *)
Definition promptHead : string :=
  nl
  ++ "You are an AI that specializes in delivering extremely short, punchy, "
  ++ "and hilariously absurd " ++ dq ++ "quick quips" ++ dq
  ++ " in response to questions. Your answers should be 5 words or less. "
  ++ "They should sound confident but be outrageously funny, often by being "
  ++ "blatantly false, misleading, or a complete non-sequitur, yet delivered "
  ++ "as if it's a profound, albeit brief, truth. The humor should be sharp "
  ++ "and unexpected. Lean heavily towards comedic falsehoods."
  ++ nl ++ nl
  ++ "User's question: " ++ dq.

Definition promptTail : string :=
  dq ++ nl ++ nl
  ++ "Deliver your quick quip (5 words or less, hilariously absurd/false, "
  ++ "confident tone) as plain text:"
  ++ nl ++ "  ".

Definition createShortHumorousPrompt (question : string) : string :=
  promptHead ++ question ++ promptTail.

Arguments MSG_KEY_MISSING : simpl never.
Arguments MSG_INIT_UNEXPECTED : simpl never.
Arguments MSG_NOT_INITIALIZED : simpl never.
Arguments MSG_NOT_TEXT : simpl never.
Arguments MSG_INVALID_KEY : simpl never.
Arguments MSG_QUOTA : simpl never.
Arguments MSG_MODEL_NOT_FOUND : simpl never.
Arguments MSG_COMMUNICATION : simpl never.
Arguments MODEL_ID : simpl never.
Arguments promptHead : simpl never.
Arguments promptTail : simpl never.
Arguments createShortHumorousPrompt question : simpl never.

Section Service.

(** The collaborators outside the repository: the constructor of the client
    ([None]: it returns; [Some v]: it throws [v]), the provider behind
    [ai.models.generateContent], and the wording the engine gives to the
    TypeErrors it throws. *)
Variable constructorThrows : string -> option JsVal.
Variable generateContent :
  GoogleGenAI -> GenerateContentParameters -> Settled.
Variable faultText : Fault -> string.

Definition typeError (f : Fault) : JsVal :=
  VObj TypeErrorClass (Some (PStr (faultText f))).

(** [new GoogleGenAI({ apiKey: key })]. *)
Definition construct (key : string) : Eff GoogleGenAI :=
  match constructorThrows key with
  | None => ret {| apiKey := key |}
  | Some v => throw v
  end.

(** [await ai.models.generateContent(params)]. *)
Definition awaitGenerateContent
    (client : GoogleGenAI) (params : GenerateContentParameters)
  : Eff GenerateContentResponse :=
  emit (ProviderCall client params) ;;
  match generateContent client params with
  | Fulfilled response => ret response
  | Rejected reason => throw reason
  end.

(** The read [v.message] as a step that can throw. *)
Definition readMessage (v : JsVal) : Eff Prim :=
  match getMessage v with
  | inl m => ret m
  | inr fault => throw (typeError fault)
  end.

(** [error.message.toLowerCase().includes(pat)]. *)
Definition messageIncludes (error : JsVal) (pat : string) : Eff bool :=
  message <- readMessage error ;;
  match message with
  | PStr s => ret (JsString.includes (JsString.toLowerCase s) pat)
  | _ => throw (typeError (NotAFunction "error.message.toLowerCase"))
  end.

(** Line 11. *)
Definition apiKeyFromEnv (process : ProcessGlobal) : JsVal :=
  match process with
  | ProcessEnv API_KEY => API_KEY
  | ProcessUndefined | ProcessWithoutEnv => undefined
  end.

(** Lines 7-30: the body of the module, run once when it is loaded. *)
Definition initialize (process : ProcessGlobal) : Eff unit :=
  tryCatch
    (let giveUp : Eff unit :=
       writeInitError (newError (PStr MSG_KEY_MISSING)) ;;
       e <- readInitError ;;
       throw e in
     match asString (apiKeyFromEnv process) with
     | None => giveUp
     | Some key =>
         if JsString.isEmpty (JsString.trim key) then giveUp
         else
           client <- construct key ;;
           writeAi client
     end)
    (fun e =>
       current <- readInitError ;;
       (if negb (strictEquals e current) then
          wrapped <-
            (if instanceofError e then ret e
             else
               message <- readMessage e ;;
               let shown := orElse message (PStr MSG_INIT_UNEXPECTED) in
               ret (newError (PStr (ToString shown)))) ;;
          writeInitError wrapped
        else ret tt) ;;
       recorded <- readInitError ;;
       if truthy recorded then
         message <- readMessage recorded ;;
         emit (ConsoleError
                 [str "Failed to initialize GoogleGenAI:"; VPrim message])
       else ret tt).

(** The module variables before the body runs (lines 4-5). *)
Definition unloaded : Module :=
  {| ai := None; apiKeyInitializationError := null |}.

Definition load (process : ProcessGlobal) : Run unit :=
  initialize process unloaded.

(** Lines 42-84. *)
Definition callGeminiAPI (promptContent : string) : Eff string :=
  initError <- readInitError ;;
  if truthy initError then throw initError
  else
    handle <- readAi ;;
    match handle with
    | None => throw (newError (PStr MSG_NOT_INITIALIZED))
    | Some client =>
        tryCatch
          (response <-
             awaitGenerateContent client
               {| model := MODEL_ID; contents := promptContent |} ;;
           match asString (text response) with
           | Some s => ret (JsString.trim s)
           | None =>
               emit (ConsoleWarn
                       [str "Received non-string response from AI, text was:";
                        text response]) ;;
               throw (newError (PStr MSG_NOT_TEXT))
           end)
          (fun error =>
             emit (ConsoleError [str "Error calling Gemini API:"; error]) ;;
             message <- readMessage error ;;
             if truthyPrim message then
               keyInvalid <- messageIncludes error "api key not valid" ;;
               denied <-
                 (if keyInvalid then ret true
                  else messageIncludes error "permission denied") ;;
               if denied then throw (newError (PStr MSG_INVALID_KEY))
               else
                 quota <- messageIncludes error "quota" ;;
                 if quota then throw (newError (PStr MSG_QUOTA))
                 else
                   notFound <- messageIncludes error "model not found" ;;
                   if notFound then
                     throw (newError (PStr MSG_MODEL_NOT_FOUND))
                   else
                     original <- readMessage error ;;
                     throw (newError original)
             else throw (newError (PStr MSG_COMMUNICATION)))
    end.

(** Lines 86-89. *)
Definition generateShortWittiHumorousAnswer (question : string) : Eff string :=
  let promptContent := createShortHumorousPrompt question in
  callGeminiAPI promptContent.

End Service.

(** ** Vocabulary of the specification *)

(** [pat] occurs in [s] when case is ignored: some stretch of [s] has the
    lower-case form [pat]. *)
Definition occursIgnoringCase (pat s : string) : Prop :=
  exists pre mid post : string,
    s = pre ++ mid ++ post /\ JsString.toLowerCase mid = pat.

(** [t] is [s] without its leading and trailing white space. *)
Definition trimmedOf (s t : string) : Prop :=
  (exists l r : string,
      s = l ++ t ++ r
      /\ JsString.allWhiteSpace l = true
      /\ JsString.allWhiteSpace r = true)
  /\ JsString.edgeIsWhiteSpace (JsString.firstChar t) = false
  /\ JsString.edgeIsWhiteSpace (JsString.lastChar t) = false.

Definition clientSet (m : Module) : bool :=
  match ai m with
  | Some _ => true
  | None => false
  end.

(** The test of line 43. *)
Definition errorSet (m : Module) : bool := truthy (apiKeyInitializationError m).

Definition exactlyOneSet (m : Module) : bool := xorb (clientSet m) (errorSet m).

(** The valid credential of line 13, when there is one. *)
Definition credential (process : ProcessGlobal) : option string :=
  match process with
  | ProcessEnv (VPrim (PStr key)) =>
      if JsString.isEmpty (JsString.trim key) then None else Some key
  | _ => None
  end.

(** The parameters [callGeminiAPI] passes to the provider for a question. *)
Definition requestFor (question : string) : GenerateContentParameters :=
  {| model := MODEL_ID; contents := createShortHumorousPrompt question |}.

(** The error-class value [new Error(msg)] for a string [msg]. *)
Definition errorWith (msg : string) : JsVal := newError (PStr msg).

Definition isProviderCall (e : Event) : bool :=
  match e with
  | ProviderCall _ _ => true
  | _ => false
  end.

(** How many times the provider was called in a log. *)
Definition providerCalls (l : list Event) : nat :=
  List.length (List.filter isProviderCall l).

(** A thrown value with no [message] property at all: a primitive, or a
    plain object without the property. *)
Definition lacksMessage (v : JsVal) : bool :=
  match v with
  | VPrim _ => true
  | VObj PlainObject None => true
  | VObj _ _ => false
  end.

Definition isNullish (v : JsVal) : bool :=
  match v with
  | VPrim PUndefined | VPrim PNull => true
  | _ => false
  end.

(** Collaborators used to run the module on concrete inputs: a constructor
    that always returns, one that always throws the given value, a provider
    that settles every call the same way, and V8's wording of TypeErrors. *)
Definition constructorReturns (key : string) : option JsVal := None.

Definition constructorThrowing (v : JsVal) (key : string) : option JsVal :=
  Some v.

Definition providerSettling (s : Settled)
    (client : GoogleGenAI) (params : GenerateContentParameters) : Settled := s.

Definition v8Text (f : Fault) : string :=
  match f with
  | ReadOfNullish base prop =>
      "Cannot read properties of " ++ ToString base
      ++ " (reading '" ++ prop ++ "')"
  | NotAFunction callee => callee ++ " is not a function"
  end.

Definition readyModule : Module :=
  {| ai := Some {| apiKey := "k" |}; apiKeyInitializationError := null |}.

Definition failedModule : Module :=
  {| ai := None;
     apiKeyInitializationError := newError (PStr MSG_KEY_MISSING) |}.

(** Console output in a log. *)
Definition isConsoleError (e : Event) : bool :=
  match e with
  | ConsoleError _ => true
  | _ => false
  end.

Definition consoleErrors (l : list Event) : nat :=
  List.length (List.filter isConsoleError l).

Definition isConsoleWarn (e : Event) : bool :=
  match e with
  | ConsoleWarn _ => true
  | _ => false
  end.

Definition consoleWarns (l : list Event) : nat :=
  List.length (List.filter isConsoleWarn l).

(** ** The page (App.tsx) *)

(** The component [App] is embedded through its state and its handlers.  A
    handler is a computation on the state of the page and on the module
    variables of the service; the [set...] calls of a handler take effect
    in program order, and the state a handler leaves is the one the next
    render sees.  The conditions under which the render puts a block in the
    page are boolean functions of the state.  The timer that clears the
    share status after two seconds is not part of the embedding. *)

(** The state of the component [App] (lines 102-107).  [error] holds [null]
    or what [setError] was given; [statusId] is [None] for [null]. *)
Record Quip : Type := { quipQuestion : string; quipAnswer : string }.

Record ShareStatus : Type :=
  { statusMessage : string; statusId : option string }.

Record UiState : Type :=
  { inputValue : string;
    currentQuip : option Quip;
    isLoading : bool;
    error : Prim;
    apiKeyError : bool;
    shareStatus : ShareStatus }.

(** The page and the service module it imports. *)
Record App : Type := { ui : UiState; service : Module }.

(** What a handler of the page caught from the browser.  The handlers read
    at most the [name] of such a value: [CaughtObject name] is an object
    with that [name] ([undefined] when it has none). *)
Inductive Caught : Type :=
| CaughtPrim (p : Prim)
| CaughtObject (name : Prim).

(** [err.name]. *)
Definition getName (err : Caught) : Prim + Fault :=
  match err with
  | CaughtPrim PUndefined => inr (ReadOfNullish PUndefined "name")
  | CaughtPrim PNull => inr (ReadOfNullish PNull "name")
  | CaughtPrim _ => inl PUndefined
  | CaughtObject name => inl name
  end.

(** The argument of [navigator.share]. *)
Record ShareData : Type :=
  { title : string; sharedText : string; url : string }.

(** How a promise of the browser settles. *)
Inductive Settlement : Type :=
| Done
| Failed (err : Caught).

Inductive AppEvent : Type :=
| Logged (e : Event)
| LoggedCaught (label : string) (err : Caught)
| NativeShare (data : ShareData)
| ClipboardWrite (written : string).

Record AppRun (A : Type) : Type :=
  { result : Completion A; app : App; shown : list AppEvent }.
Arguments result {A} _.
Arguments app {A} _.
Arguments shown {A} _.

Definition AppEff (A : Type) : Type := App -> AppRun A.

Definition appRet {A : Type} (a : A) : AppEff A :=
  fun s => {| result := Normal a; app := s; shown := [] |}.

Definition appThrow {A : Type} (v : JsVal) : AppEff A :=
  fun s => {| result := Throw v; app := s; shown := [] |}.

Definition appAfter {A : Type} (l : list AppEvent) (r : AppRun A) : AppRun A :=
  match r with
  | {| result := o; app := s; shown := l' |} =>
      {| result := o; app := s; shown := (l ++ l')%list |}
  end.

Definition appBind {A B : Type} (c : AppEff A) (k : A -> AppEff B)
  : AppEff B :=
  fun s =>
    match c s with
    | {| result := Normal a; app := s'; shown := l |} => appAfter l (k a s')
    | {| result := Throw v; app := s'; shown := l |} =>
        {| result := Throw v; app := s'; shown := l |}
    end.

(** [try { body } catch (e) { handler e } finally { finalizer }]: the
    finalizer runs whatever happened, and what happened stands unless the
    finalizer throws. *)
Definition tryCatchFinally {A : Type}
    (body : AppEff A) (handler : JsVal -> AppEff A) (finalizer : AppEff unit)
  : AppEff A :=
  fun s =>
    match
      match body s with
      | {| result := Normal a; app := s'; shown := l |} =>
          {| result := Normal a; app := s'; shown := l |}
      | {| result := Throw e; app := s'; shown := l |} =>
          appAfter l (handler e s')
      end
    with
    | {| result := r; app := s'; shown := l |} =>
        match finalizer s' with
        | {| result := Normal _; app := s''; shown := l' |} =>
            {| result := r; app := s''; shown := (l ++ l')%list |}
        | {| result := Throw v; app := s''; shown := l' |} =>
            {| result := Throw v; app := s''; shown := (l ++ l')%list |}
        end
    end.

Definition appEmit (e : AppEvent) : AppEff unit :=
  fun s => {| result := Normal tt; app := s; shown := [e] |}.

(** A call of the service from the page: it runs on the module variables
    and its log is part of what the page shows. *)
Definition callService {A : Type} (c : Eff A) : AppEff A :=
  fun s =>
    match c (service s) with
    | {| outcome := o; final := m; log := l |} =>
        {| result := o;
           app := {| ui := ui s; service := m |};
           shown := List.map Logged l |}
    end.

Definition setUi (f : UiState -> UiState) : AppEff unit :=
  fun s => {| result := Normal tt;
              app := {| ui := f (ui s); service := service s |};
              shown := [] |}.

Definition setInputValue (v : string) : AppEff unit :=
  setUi (fun u => {| inputValue := v; currentQuip := currentQuip u;
                     isLoading := isLoading u; error := error u;
                     apiKeyError := apiKeyError u;
                     shareStatus := shareStatus u |}).

Definition setCurrentQuip (v : option Quip) : AppEff unit :=
  setUi (fun u => {| inputValue := inputValue u; currentQuip := v;
                     isLoading := isLoading u; error := error u;
                     apiKeyError := apiKeyError u;
                     shareStatus := shareStatus u |}).

Definition setIsLoading (v : bool) : AppEff unit :=
  setUi (fun u => {| inputValue := inputValue u;
                     currentQuip := currentQuip u;
                     isLoading := v; error := error u;
                     apiKeyError := apiKeyError u;
                     shareStatus := shareStatus u |}).

Definition setError (v : Prim) : AppEff unit :=
  setUi (fun u => {| inputValue := inputValue u;
                     currentQuip := currentQuip u;
                     isLoading := isLoading u; error := v;
                     apiKeyError := apiKeyError u;
                     shareStatus := shareStatus u |}).

Definition setApiKeyError (v : bool) : AppEff unit :=
  setUi (fun u => {| inputValue := inputValue u;
                     currentQuip := currentQuip u;
                     isLoading := isLoading u; error := error u;
                     apiKeyError := v;
                     shareStatus := shareStatus u |}).

Definition setShareStatus (v : ShareStatus) : AppEff unit :=
  setUi (fun u => {| inputValue := inputValue u;
                     currentQuip := currentQuip u;
                     isLoading := isLoading u; error := error u;
                     apiKeyError := apiKeyError u;
                     shareStatus := v |}).

Declare Scope app_scope.
Delimit Scope app_scope with app.
Notation "x <- c ;; k" := (appBind c (fun x => k))
  (at level 61, c at next level, right associativity) : app_scope.
Notation "c ;; k" := (appBind c (fun _ => k))
  (at level 61, right associativity) : app_scope.

Definition MSG_ENTER_QUESTION : string :=
  "Please enter a question to get a WITTI quip!".

Definition MSG_NO_QUIP : string :=
  "Failed to get a quip. The muse of brevity is unavailable.".

Arguments MSG_ENTER_QUESTION : simpl never.
Arguments MSG_NO_QUIP : simpl never.

(** [question + '::' + content], the id of a quip in [shareStatus]. *)
Definition quipId (question content : string) : string :=
  question ++ "::" ++ content.

(** The text handed to the share sheet or to the clipboard (line 151). *)
Definition shareTextOf (question content : string) : string :=
  "Question: " ++ question ++ nl ++ nl
  ++ "WITTI's Quick Quip:" ++ nl ++ content.

Section Page.

Variable generateContent :
  GoogleGenAI -> GenerateContentParameters -> Settled.
Variable faultText : Fault -> string.

(** The browser: [navigator.share] and [navigator.clipboard.writeText]
    ([None] when the page finds them missing) and [window.location.href]. *)
Variable navigatorShare : option (ShareData -> Settlement).
Variable clipboardWriteText : option (string -> Settlement).
Variable locationHref : string.

Local Open Scope app_scope.

(** [v.message] in a handler of the page. *)
Definition appReadMessage (v : JsVal) : AppEff Prim :=
  match getMessage v with
  | inl m => appRet m
  | inr fault => appThrow (typeError faultText fault)
  end.

(** [errorMessage.toLowerCase().includes(pat)]. *)
Definition errorMessageIncludes (errorMessage : Prim) (pat : string)
  : AppEff bool :=
  match errorMessage with
  | PStr s => appRet (JsString.includes (JsString.toLowerCase s) pat)
  | _ =>
      appThrow (typeError faultText (NotAFunction "errorMessage.toLowerCase"))
  end.

(** Lines 118-143. *)
Definition handleFetchWittiQuip (questionToAsk : string) : AppEff unit :=
  if JsString.isEmpty (JsString.trim questionToAsk) then
    setError (PStr MSG_ENTER_QUESTION)
  else
    setIsLoading true ;;
    setError PNull ;;
    setApiKeyError false ;;
    setCurrentQuip None ;;
    tryCatchFinally
      (result <-
         callService
           (generateShortWittiHumorousAnswer
              generateContent faultText questionToAsk) ;;
       setCurrentQuip
         (Some {| quipQuestion := questionToAsk; quipAnswer := result |}) ;;
       setInputValue EmptyString)
      (fun e =>
         appEmit (Logged (ConsoleError [str "Error fetching quip:"; e])) ;;
         message <- appReadMessage e ;;
         let errorMessage := orElse message (PStr MSG_NO_QUIP) in
         setError errorMessage ;;
         mentionsKey <- errorMessageIncludes errorMessage "api key" ;;
         mentions <-
           (if mentionsKey then appRet true
            else errorMessageIncludes errorMessage "api_key") ;;
         if mentions then setApiKeyError true else appRet tt)
      (setIsLoading false).

(** Lines 145-148: the form submits what is in the text area. *)
Definition handleSubmit : AppEff unit :=
  fun s => handleFetchWittiQuip (inputValue (ui s)) s.

(** Lines 150-183. *)
Definition handleShareQuip (question content : string) : AppEff unit :=
  let shareText := shareTextOf question content in
  let shareTitle := "WITTI: My WITTI Quip" in
  let uniqueId := quipId question content in
  setShareStatus {| statusMessage := EmptyString; statusId := None |} ;;
  match navigatorShare with
  | Some share =>
      let data :=
        {| title := shareTitle; sharedText := shareText;
           url := locationHref |} in
      appEmit (NativeShare data) ;;
      match share data with
      | Done => appRet tt
      | Failed err =>
          appEmit (LoggedCaught "Error using Web Share API:" err) ;;
          match getName err with
          | inr fault => appThrow (typeError faultText fault)
          | inl name =>
              if negb (primStrictEquals name (PStr "AbortError")) then
                setShareStatus {| statusMessage := "Share failed";
                                  statusId := Some uniqueId |}
              else appRet tt
          end
      end
  | None =>
      match clipboardWriteText with
      | Some writeText =>
          appEmit (ClipboardWrite shareText) ;;
          match writeText shareText with
          | Done =>
              setShareStatus {| statusMessage := "Copied!";
                                statusId := Some uniqueId |}
          | Failed err =>
              appEmit (LoggedCaught "Failed to copy to clipboard:" err) ;;
              setShareStatus {| statusMessage := "Copy failed";
                                statusId := Some uniqueId |}
          end
      | None =>
          setShareStatus {| statusMessage := "Share N/A";
                            statusId := Some uniqueId |} ;;
          appEmit
            (Logged
               (ConsoleWarn
                  [str "Web Share and Clipboard API not available."]))
      end
  end.

End Page.

(** What the page renders of a state (lines 197-265): which blocks are in
    the page, and the state of the two buttons. *)
Definition apiKeyBannerShown (u : UiState) : bool := apiKeyError u.

Definition formShown (u : UiState) : bool := negb (apiKeyError u).

Definition submitDisabled (u : UiState) : bool :=
  isLoading u || JsString.isEmpty (JsString.trim (inputValue u)).

Definition spinnerShown (u : UiState) : bool :=
  isLoading u
  && negb (match currentQuip u with Some _ => true | None => false end)
  && negb (truthyPrim (error u)).

Definition errorBannerShown (u : UiState) : bool :=
  truthyPrim (error u) && negb (apiKeyError u).

Definition quipShown (u : UiState) : bool :=
  match currentQuip u with Some _ => true | None => false end
  && negb (truthyPrim (error u)).

Definition shareButtonShown (u : UiState) : bool :=
  quipShown u && negb (apiKeyError u).

Definition statusIsFor (u : UiState) (q : Quip) : bool :=
  match statusId (shareStatus u) with
  | Some i => String.eqb i (quipId (quipQuestion q) (quipAnswer q))
  | None => false
  end.

Definition shareDisabled (u : UiState) (q : Quip) : bool :=
  isLoading u
  || (String.eqb (statusMessage (shareStatus u)) "Copied!"
      && statusIsFor u q).

Definition shareLabel (u : UiState) (q : Quip) : string :=
  if statusIsFor u q then statusMessage (shareStatus u) else "Share Quip".

(** How many of the three result blocks (quip, error banner, key banner)
    are in the page. *)
Definition resultBlocks (u : UiState) : nat :=
  (if quipShown u then 1 else 0)
  + (if errorBannerShown u then 1 else 0)
  + (if apiKeyBannerShown u then 1 else 0).

Definition initialUi : UiState :=
  {| inputValue := EmptyString; currentQuip := None; isLoading := false;
     error := PNull; apiKeyError := false;
     shareStatus := {| statusMessage := EmptyString; statusId := None |} |}.

Definition isClipboardWrite (e : AppEvent) : bool :=
  match e with
  | ClipboardWrite _ => true
  | _ => false
  end.

Definition isNativeShare (e : AppEvent) : bool :=
  match e with
  | NativeShare _ => true
  | _ => false
  end.

Definition isLoggedProviderCall (e : AppEvent) : bool :=
  match e with
  | Logged (ProviderCall _ _) => true
  | _ => false
  end.

(** A browser promise that settles the same way whatever it is given. *)
Definition settling {A : Type} (s : Settlement) (a : A) : Settlement := s.

(** Inputs used to run the module and the page on concrete cases. *)
Definition blankProcess : ProcessGlobal :=
  ProcessEnv (str (" " ++ nl ++ "  ")).

Definition keyProcess : ProcessGlobal := ProcessEnv (str " key ").

Definition startPage (m : Module) (typed : string) : App :=
  {| ui := {| inputValue := typed; currentQuip := None; isLoading := false;
              error := PNull; apiKeyError := false;
              shareStatus := {| statusMessage := EmptyString;
                                statusId := None |} |};
     service := m |}.


(** ** Strings *)

Lemma append_empty_r (s : string) : s ++ EmptyString = s.
Proof.
  induction s as [|c s IH]; simpl; [reflexivity | now rewrite IH].
Qed.

Lemma append_assoc (a b c : string) : (a ++ b) ++ c = a ++ (b ++ c).
Proof.
  induction a as [|x a IH]; simpl; [reflexivity | now rewrite IH].
Qed.

Lemma startsWith_append (pat rest : string) :
  JsString.startsWith pat (pat ++ rest) = true.
Proof.
  induction pat as [|c pat IH]; simpl.
  - reflexivity.
  - now rewrite Ascii.eqb_refl, IH.
Qed.

Lemma startsWith_inv (pat s : string) :
  JsString.startsWith pat s = true -> exists rest, s = pat ++ rest.
Proof.
  revert s; induction pat as [|c pat IH]; intros s H.
  - exists s; reflexivity.
  - destruct s as [|d s]; simpl in H; [discriminate|].
    apply andb_true_iff in H as [Hc Hs].
    apply Ascii.eqb_eq in Hc; subst d.
    destruct (IH s Hs) as [rest ->].
    exists rest; reflexivity.
Qed.

Lemma includes_tail (c : ascii) (s pat : string) :
  JsString.includes s pat = true ->
  JsString.includes (String c s) pat = true.
Proof.
  intros H. cbn [JsString.includes]. rewrite H. apply orb_true_r.
Qed.

(** [includes] is the substring test. *)
Lemma includes_iff (s pat : string) :
  JsString.includes s pat = true <->
  exists pre post, s = pre ++ pat ++ post.
Proof.
  split.
  - induction s as [|c s IH]; intros H.
    + cbn [JsString.includes] in H. rewrite orb_false_r in H.
      apply startsWith_inv in H as [rest Hrest].
      exists EmptyString, rest. exact Hrest.
    + cbn [JsString.includes] in H. apply orb_true_iff in H as [H|H].
      * apply startsWith_inv in H as [rest Hrest].
        exists EmptyString, rest. exact Hrest.
      * destruct (IH H) as (pre & post & ->).
        exists (String c pre), post. reflexivity.
  - intros (pre & post & ->).
    induction pre as [|c pre IH].
    + simpl. destruct (pat ++ post) eqn:E.
      * cbn [JsString.includes]. rewrite <- E, startsWith_append. reflexivity.
      * cbn [JsString.includes]. rewrite <- E, startsWith_append. reflexivity.
    + simpl. apply includes_tail. exact IH.
Qed.

Lemma toLowerCase_append (a b : string) :
  JsString.toLowerCase (a ++ b)
  = JsString.toLowerCase a ++ JsString.toLowerCase b.
Proof.
  induction a as [|c a IH]; simpl; [reflexivity | now rewrite IH].
Qed.

Lemma toLowerCase_split (s x y : string) :
  JsString.toLowerCase s = x ++ y ->
  exists a b, s = a ++ b
              /\ JsString.toLowerCase a = x /\ JsString.toLowerCase b = y.
Proof.
  revert s; induction x as [|c x IH]; intros s H.
  - exists EmptyString, s. auto.
  - destruct s as [|d s]; simpl in H; [discriminate|].
    injection H as Hc Hs.
    destruct (IH s Hs) as (a & b & -> & Ha & Hb).
    exists (String d a), b. simpl. rewrite Hc, Ha. auto.
Qed.

(** Searching the lower-cased message for a pattern is the search that
    ignores the case of the message. *)
Lemma includes_lower_iff (s pat : string) :
  JsString.includes (JsString.toLowerCase s) pat = true <->
  occursIgnoringCase pat s.
Proof.
  rewrite includes_iff. split.
  - intros (pre & post & H).
    apply toLowerCase_split in H as (a & b & -> & Ha & Hb).
    apply toLowerCase_split in Hb as (mid & c & -> & Hmid & Hc).
    exists a, mid, c. auto.
  - intros (pre & mid & post & -> & Hmid).
    exists (JsString.toLowerCase pre), (JsString.toLowerCase post).
    now rewrite !toLowerCase_append, Hmid.
Qed.

(** Two messages that differ in case only contain the same patterns. *)
Lemma occursIgnoringCase_case (pat s s' : string) :
  JsString.toLowerCase s = JsString.toLowerCase s' ->
  occursIgnoringCase pat s <-> occursIgnoringCase pat s'.
Proof.
  intros Hcase. now rewrite <- !includes_lower_iff, Hcase.
Qed.

Lemma occursIgnoringCase_dec (pat s : string) :
  {occursIgnoringCase pat s} + {~ occursIgnoringCase pat s}.
Proof.
  destruct (JsString.includes (JsString.toLowerCase s) pat) eqn:E.
  - left. now apply includes_lower_iff.
  - right. intros H. apply includes_lower_iff in H. congruence.
Qed.

Lemma trimStart_spec (s : string) :
  exists l, s = l ++ JsString.trimStart s
            /\ JsString.allWhiteSpace l = true
            /\ JsString.edgeIsWhiteSpace
                 (JsString.firstChar (JsString.trimStart s)) = false.
Proof.
  induction s as [|c s (l & Hs & Hl & Hf)]; simpl.
  - exists EmptyString. auto.
  - destruct (JsString.isWhiteSpace c) eqn:Hc.
    + exists (String c l). simpl. rewrite Hc, Hl, <- Hs. auto.
    + exists EmptyString. simpl. auto.
Qed.

Lemma trimEnd_spec (s : string) :
  exists r, s = JsString.trimEnd s ++ r
            /\ JsString.allWhiteSpace r = true
            /\ JsString.edgeIsWhiteSpace
                 (JsString.lastChar (JsString.trimEnd s)) = false.
Proof.
  induction s as [|c s (r & Hs & Hr & Hlast)]; simpl.
  - exists EmptyString. auto.
  - destruct (JsString.trimEnd s) as [|d t] eqn:Ht.
    + destruct (JsString.isWhiteSpace c) eqn:Hc.
      * exists (String c r). simpl in *. subst r. rewrite Hc, Hr. auto.
      * exists r. simpl in *. subst r. rewrite Hc. auto.
    + exists r. rewrite Hs at 1. split; [reflexivity|]. split; [exact Hr|].
      exact Hlast.
Qed.

Lemma trimEnd_firstChar (s : string) :
  JsString.edgeIsWhiteSpace (JsString.firstChar s) = false ->
  JsString.edgeIsWhiteSpace
    (JsString.firstChar (JsString.trimEnd s)) = false.
Proof.
  destruct s as [|c s]; simpl; [auto|].
  intros Hc. destruct (JsString.trimEnd s); [rewrite Hc|]; simpl; auto.
Qed.

(** [trim] removes exactly the leading and the trailing white space. *)
Lemma trim_trimmedOf (s : string) : trimmedOf s (JsString.trim s).
Proof.
  unfold trimmedOf, JsString.trim.
  destruct (trimStart_spec s) as (l & Hs & Hl & Hf).
  destruct (trimEnd_spec (JsString.trimStart s)) as (r & Ht & Hr & Hlast).
  split; [|split].
  - exists l, r. rewrite <- Ht. auto.
  - apply trimEnd_firstChar. exact Hf.
  - exact Hlast.
Qed.

(** A string trims to the empty string exactly when it is white space
    only. *)
Lemma trim_empty_iff (s : string) :
  JsString.isEmpty (JsString.trim s) = true <->
  JsString.allWhiteSpace s = true.
Proof.
  unfold JsString.trim. induction s as [|c s IH]; simpl.
  - tauto.
  - destruct (JsString.isWhiteSpace c) eqn:Hc; simpl.
    + exact IH.
    + rewrite Hc. destruct (JsString.trimEnd s); simpl; split; discriminate.
Qed.

(** ** Facts about the literals of the module *)

Lemma nonempty_not_isEmpty (s : string) :
  s <> EmptyString -> JsString.isEmpty s = false.
Proof.
  destruct s; [congruence | reflexivity].
Qed.

Lemma MSG_NOT_TEXT_unclassified :
  JsString.isEmpty MSG_NOT_TEXT = false
  /\ JsString.includes (JsString.toLowerCase MSG_NOT_TEXT)
       "api key not valid" = false
  /\ JsString.includes (JsString.toLowerCase MSG_NOT_TEXT)
       "permission denied" = false
  /\ JsString.includes (JsString.toLowerCase MSG_NOT_TEXT) "quota" = false
  /\ JsString.includes (JsString.toLowerCase MSG_NOT_TEXT)
       "model not found" = false.
Proof.
  repeat split; vm_compute; reflexivity.
Qed.

Lemma asString_typeof (v : JsVal) :
  typeof v <> "string" -> asString v = None.
Proof.
  destruct v as [[| |b|z| |s]|cls msg]; cbn; intros H; try reflexivity.
  now elim H.
Qed.

Lemma includes_append_l (a b pat : string) :
  JsString.includes a pat = true -> JsString.includes (a ++ b) pat = true.
Proof.
  rewrite !includes_iff. intros (pre & post & ->).
  exists pre, (post ++ b). now rewrite !append_assoc.
Qed.

Lemma includes_append_r (a b pat : string) :
  JsString.includes b pat = true -> JsString.includes (a ++ b) pat = true.
Proof.
  rewrite !includes_iff. intros (pre & post & ->).
  exists (a ++ pre), post. now rewrite !append_assoc.
Qed.

Lemma strictEquals_null (v : JsVal) :
  strictEquals v null = true -> v = null.
Proof.
  destruct v as [[| |b|z| |s]|cls msg]; cbn; intros H;
    try discriminate; reflexivity.
Qed.

(** The values that count as false. *)
Lemma falsy_values (p : Prim) :
  truthyPrim p = false <->
  p = PUndefined \/ p = PNull \/ p = PBool false \/ p = PNum 0%Z
  \/ p = PNaN \/ p = PStr EmptyString.
Proof.
  split.
  - destruct p as [| |[|]|z| |[|c s]]; cbn; intros H;
      try discriminate; auto 10.
    apply negb_false_iff, Z.eqb_eq in H. subst z. auto 10.
  - intros [->|[->|[->|[->|[->| ->]]]]]; reflexivity.
Qed.

(** ** The service *)

Ltac unfold_service :=
  unfold generateShortWittiHumorousAnswer, callGeminiAPI, requestFor,
    errorWith, awaitGenerateContent, messageIncludes, readMessage, bind,
    tryCatch, readInitError, readAi, emit, throw, ret;
  cbn [after app].

Ltac run := cbn [after app getMessage newError truthyPrim ToString].

(** Take one step at a branch whose scrutinee is a value, not a run. *)
Ltac branch :=
  match goal with
  | |- context [match ?x with _ => _ end] =>
      lazymatch type of x with
      | Run _ => fail
      | _ => destruct x eqn:?
      end
  end.

Section CallFacts.

Variable generateContent :
  GoogleGenAI -> GenerateContentParameters -> Settled.
Variable faultText : Fault -> string.

Local Abbreviation answer :=
  (generateShortWittiHumorousAnswer generateContent faultText).

(** A call never writes the module variables. *)
Lemma call_preserves_module (question : string) (m : Module) :
  final (answer question m) = m.
Proof.
  unfold_service. repeat (run; branch); run; reflexivity.
Qed.

(** Without a client, or with a recorded error, the question plays no
    part at all. *)
Lemma question_ignored_when_not_ready (m : Module) (q q' : string) :
  errorSet m = true \/ ai m = None ->
  answer q m = answer q' m.
Proof.
  unfold errorSet. intros Hnot. unfold_service.
  destruct (truthy (apiKeyInitializationError m)); [reflexivity|].
  destruct Hnot as [Hset | ->]; [discriminate | reflexivity].
Qed.

(** A rejection whose message is a non-empty string: the whole run. *)
Lemma rejected_with_message
    (m : Module) (client : GoogleGenAI) (question : string)
    (reason : JsVal) (s : string) :
  errorSet m = false ->
  ai m = Some client ->
  generateContent client (requestFor question) = Rejected reason ->
  getMessage reason = inl (PStr s) ->
  s <> EmptyString ->
  answer question m
  = {| outcome :=
         Throw
           (errorWith
              (if JsString.includes (JsString.toLowerCase s)
                    "api key not valid"
                  || JsString.includes (JsString.toLowerCase s)
                       "permission denied"
               then MSG_INVALID_KEY
               else if JsString.includes (JsString.toLowerCase s) "quota"
               then MSG_QUOTA
               else if JsString.includes (JsString.toLowerCase s)
                         "model not found"
               then MSG_MODEL_NOT_FOUND
               else s));
       final := m;
       log := [ProviderCall client (requestFor question);
               ConsoleError [str "Error calling Gemini API:"; reason]] |}.
Proof.
  intros Hset Hai Hrej Hmsg Hs.
  unfold errorSet in Hset. unfold_service. rewrite Hset, Hai. run.
  unfold requestFor in Hrej. rewrite Hrej. run. rewrite Hmsg. run.
  rewrite (nonempty_not_isEmpty s Hs). cbn [negb].
  repeat match goal with
         | |- context [JsString.includes ?a ?b] =>
             destruct (JsString.includes a b)
         end; reflexivity.
Qed.

(** A rejection whose message reads as a false value: the whole run. *)
Lemma rejected_without_usable_message
    (m : Module) (client : GoogleGenAI) (question : string)
    (reason : JsVal) (p : Prim) :
  errorSet m = false ->
  ai m = Some client ->
  generateContent client (requestFor question) = Rejected reason ->
  getMessage reason = inl p ->
  truthyPrim p = false ->
  answer question m
  = {| outcome := Throw (errorWith MSG_COMMUNICATION);
       final := m;
       log := [ProviderCall client (requestFor question);
               ConsoleError [str "Error calling Gemini API:"; reason]] |}.
Proof.
  intros Hset Hai Hrej Hmsg Hp.
  unfold errorSet in Hset. unfold_service. rewrite Hset, Hai. run.
  unfold requestFor in Hrej. rewrite Hrej. run.
  rewrite Hmsg. run. rewrite Hp. reflexivity.
Qed.

(** A fulfilled call whose [text] is a string: the whole run. *)
Lemma fulfilled_with_string
    (m : Module) (client : GoogleGenAI) (question : string)
    (response : GenerateContentResponse) (s : string) :
  errorSet m = false ->
  ai m = Some client ->
  generateContent client (requestFor question) = Fulfilled response ->
  text response = str s ->
  answer question m
  = {| outcome := Normal (JsString.trim s);
       final := m;
       log := [ProviderCall client (requestFor question)] |}.
Proof.
  intros Hset Hai Hful Htext.
  unfold errorSet in Hset. unfold_service. rewrite Hset, Hai. run.
  unfold requestFor in Hful. rewrite Hful. run. rewrite Htext. reflexivity.
Qed.

(** C1. When the initialization error is set, every call rejects with that
    very stored error, whatever the question and whether or not a client
    exists; nothing is logged and the provider is not called, and the module
    variables are left as they were, so the next call does the same. *)
Theorem init_error_short_circuits (m : Module) (question : string) :
  errorSet m = true ->
  answer question m
  = {| outcome := Throw (apiKeyInitializationError m);
       final := m; log := [] |}.
Proof.
  intros Hset. unfold errorSet in Hset. unfold_service.
  rewrite Hset. reflexivity.
Qed.

(** C2. A rejection of the provider whose message is a non-empty string is
    classified by searching the message, case ignored, in this order: the
    invalid-key error for [api key not valid] or [permission denied], else
    the quota error for [quota], else the model error for
    [model not found]. *)
Theorem provider_error_classified
    (m : Module) (client : GoogleGenAI) (question : string)
    (reason : JsVal) (s : string) :
  errorSet m = false ->
  ai m = Some client ->
  generateContent client (requestFor question) = Rejected reason ->
  getMessage reason = inl (PStr s) ->
  s <> EmptyString ->
  (occursIgnoringCase "api key not valid" s
   \/ occursIgnoringCase "permission denied" s ->
   outcome (answer question m) = Throw (errorWith MSG_INVALID_KEY))
  /\ (~ occursIgnoringCase "api key not valid" s ->
      ~ occursIgnoringCase "permission denied" s ->
      occursIgnoringCase "quota" s ->
      outcome (answer question m) = Throw (errorWith MSG_QUOTA))
  /\ (~ occursIgnoringCase "api key not valid" s ->
      ~ occursIgnoringCase "permission denied" s ->
      ~ occursIgnoringCase "quota" s ->
      occursIgnoringCase "model not found" s ->
      outcome (answer question m) = Throw (errorWith MSG_MODEL_NOT_FOUND)).
Proof.
  intros Hset Hai Hrej Hmsg Hs.
  rewrite (rejected_with_message m client question reason s) by assumption.
  cbn [outcome]. rewrite <- !includes_lower_iff.
  destruct (JsString.includes (JsString.toLowerCase s) "api key not valid");
    destruct (JsString.includes (JsString.toLowerCase s) "permission denied");
    destruct (JsString.includes (JsString.toLowerCase s) "quota");
    destruct (JsString.includes (JsString.toLowerCase s) "model not found");
    cbn [orb]; repeat split; intros; try reflexivity;
    try congruence; intuition congruence.
Qed.

(** C4. When the provider answers with a string, the call resolves with
    that string without its leading and trailing white space. *)
Theorem string_response_is_trimmed
    (m : Module) (client : GoogleGenAI) (question : string)
    (response : GenerateContentResponse) (s : string) :
  errorSet m = false ->
  ai m = Some client ->
  generateContent client (requestFor question) = Fulfilled response ->
  text response = str s ->
  outcome (answer question m) = Normal (JsString.trim s)
  /\ trimmedOf s (JsString.trim s).
Proof.
  intros Hset Hai Hful Htext. split.
  - now rewrite (fulfilled_with_string m client question response s).
  - apply trim_trimmedOf.
Qed.

(** C5. When the provider answers with a [text] that is not a string, the
    call warns on the console and rejects with the error saying that the
    response was not in the expected text format. *)
Theorem non_string_response_rejected
    (m : Module) (client : GoogleGenAI) (question : string)
    (response : GenerateContentResponse) :
  errorSet m = false ->
  ai m = Some client ->
  generateContent client (requestFor question) = Fulfilled response ->
  typeof (text response) <> "string" ->
  answer question m
  = {| outcome := Throw (errorWith MSG_NOT_TEXT);
       final := m;
       log := [ProviderCall client (requestFor question);
               ConsoleWarn
                 [str "Received non-string response from AI, text was:";
                  text response];
               ConsoleError
                 [str "Error calling Gemini API:"; errorWith MSG_NOT_TEXT]] |}
  /\ getMessage (errorWith MSG_NOT_TEXT) = inl (PStr MSG_NOT_TEXT)
  /\ JsString.includes MSG_NOT_TEXT "not in the expected text format" = true.
Proof.
  intros Hset Hai Hful Htype.
  destruct MSG_NOT_TEXT_unclassified as (He & Hk & Hp & Hq & Hm).
  split; [|split; [reflexivity | vm_compute; reflexivity]].
  unfold errorSet in Hset. unfold_service. rewrite Hset, Hai. run.
  unfold requestFor in Hful. rewrite Hful. run.
  rewrite (asString_typeof _ Htype). run.
  rewrite He. cbn [negb]. rewrite Hk. run. rewrite Hp. run.
  rewrite Hq. run. rewrite Hm. reflexivity.
Qed.

(** C6. A rejection whose non-empty string message contains none of the
    four patterns, case ignored, is rejected again as a new error with
    exactly that message. *)
Theorem unclassified_message_passes_through
    (m : Module) (client : GoogleGenAI) (question : string)
    (reason : JsVal) (s : string) :
  errorSet m = false ->
  ai m = Some client ->
  generateContent client (requestFor question) = Rejected reason ->
  getMessage reason = inl (PStr s) ->
  s <> EmptyString ->
  ~ occursIgnoringCase "api key not valid" s ->
  ~ occursIgnoringCase "permission denied" s ->
  ~ occursIgnoringCase "quota" s ->
  ~ occursIgnoringCase "model not found" s ->
  outcome (answer question m) = Throw (errorWith s)
  /\ getMessage (errorWith s) = inl (PStr s).
Proof.
  intros Hset Hai Hrej Hmsg Hs Hk Hp Hq Hm.
  rewrite <- includes_lower_iff in Hk, Hp, Hq, Hm.
  apply not_true_is_false in Hk, Hp, Hq, Hm.
  rewrite (rejected_with_message m client question reason s) by assumption.
  rewrite Hk, Hp, Hq, Hm. split; reflexivity.
Qed.

(** C7, amended. A rejection value other than [undefined] and [null] that
    has no [message] property at all is rejected as the fixed communication
    error. *)
Theorem missing_message_is_communication_error
    (m : Module) (client : GoogleGenAI) (question : string)
    (reason : JsVal) :
  errorSet m = false ->
  ai m = Some client ->
  generateContent client (requestFor question) = Rejected reason ->
  lacksMessage reason = true ->
  isNullish reason = false ->
  outcome (answer question m) = Throw (errorWith MSG_COMMUNICATION).
Proof.
  intros Hset Hai Hrej Hlacks Hnn.
  rewrite (rejected_without_usable_message m client question reason PUndefined);
    try assumption; try reflexivity.
  destruct reason as [[| |b|z| |s]|[| |] [p|]]; cbn in *;
    try discriminate; reflexivity.
Qed.

(** C9. A rejection whose [message] property is present but holds the empty
    string, or any other value that counts as false, is rejected as the
    fixed communication error, like a rejection without a message. *)
Theorem falsy_message_is_communication_error
    (m : Module) (client : GoogleGenAI) (question : string)
    (cls : ObjClass) (p : Prim) :
  errorSet m = false ->
  ai m = Some client ->
  generateContent client (requestFor question) = Rejected (VObj cls (Some p)) ->
  truthyPrim p = false ->
  outcome (answer question m) = Throw (errorWith MSG_COMMUNICATION).
Proof.
  intros Hset Hai Hrej Hp.
  rewrite (rejected_without_usable_message
             m client question (VObj cls (Some p)) p);
    try assumption; [reflexivity | destruct cls; reflexivity].
Qed.

(** C10. The question is not validated: with a client and no recorded
    error, whatever the question, the call goes to the provider, once and
    first of all, with the fixed model and the prompt that embeds the
    question unchanged; and the outcome depends on the question only through
    what the provider answers. *)
Theorem question_not_validated
    (m : Module) (client : GoogleGenAI) (question : string) :
  errorSet m = false ->
  ai m = Some client ->
  (exists rest,
      log (answer question m)
      = ProviderCall client
          {| model := MODEL_ID;
             contents := promptHead ++ question ++ promptTail |} :: rest)
  /\ providerCalls (log (answer question m)) = 1
  /\ (forall other : string,
         generateContent client (requestFor other)
         = generateContent client (requestFor question) ->
         outcome (answer other m) = outcome (answer question m)).
Proof.
  intros Hset Hai. split; [|split].
  - unfold errorSet in Hset. unfold_service. rewrite Hset, Hai. run.
    unfold createShortHumorousPrompt.
    repeat (run; branch); run; eexists; reflexivity.
  - unfold errorSet in Hset. unfold_service. rewrite Hset, Hai. run.
    repeat (run; branch); run; reflexivity.
  - intros other Hsame.
    unfold errorSet in Hset. unfold requestFor in Hsame. unfold_service.
    rewrite Hset, Hai. run. rewrite Hsame.
    repeat (run; branch); run; reflexivity.
Qed.

End CallFacts.

(** ** The initializer *)

Section InitializerFacts.

Set Default Proof Using "Type".

Variable constructorThrows : string -> option JsVal.
Variable generateContent :
  GoogleGenAI -> GenerateContentParameters -> Settled.
Variable faultText : Fault -> string.

Local Abbreviation answer :=
  (generateShortWittiHumorousAnswer generateContent faultText).
Local Abbreviation loaded :=
  (load constructorThrows faultText).

(** Without a usable credential the initializer records the fixed error,
    logs it once and makes no client. *)
Lemma missing_credential_recorded (process : ProcessGlobal) :
  credential process = None ->
  loaded process
  = {| outcome := Normal tt;
       final := failedModule;
       log := [ConsoleError [str "Failed to initialize GoogleGenAI:";
                             str MSG_KEY_MISSING]] |}.
Proof.
  unfold credential, load, initialize, apiKeyFromEnv.
  destruct process as [| |[[| |b|z| |key]|cls msg]]; cbn [asString];
    try reflexivity.
  destruct (JsString.isEmpty (JsString.trim key)); [reflexivity|discriminate].
Qed.

(** The state after the initializer, case by case. *)
Lemma initializer_cases (process : ProcessGlobal) :
  match credential process with
  | None => final (loaded process) = failedModule
  | Some key =>
      match constructorThrows key with
      | None =>
          loaded process
          = {| outcome := Normal tt;
               final := {| ai := Some {| apiKey := key |};
                           apiKeyInitializationError := null |};
               log := [] |}
      | Some thrown =>
          if strictEquals thrown null then
            loaded process
            = {| outcome := Normal tt; final := unloaded; log := [] |}
          else
            outcome (loaded process) = Normal tt ->
            clientSet (final (loaded process)) = false
            /\ errorSet (final (loaded process)) = true
      end
  end.
Proof.
  destruct (credential process) as [key|] eqn:Hcred.
  - unfold credential in Hcred.
    destruct process as [| |[[| |b|z| |k]|cls msg]]; try discriminate.
    destruct (JsString.isEmpty (JsString.trim k)) eqn:Hk; [discriminate|].
    injection Hcred as ->.
    unfold load, initialize, apiKeyFromEnv, construct, readMessage.
    cbn [asString]. rewrite Hk.
    unfold bind, tryCatch, writeInitError, writeAi, readInitError, throw, ret,
      emit.
    destruct (constructorThrows key) as [thrown|]; [|reflexivity].
    destruct thrown as [[| |b|z| |s]|[| |] [p|]];
      cbn; try reflexivity; try discriminate; auto;
      try (destruct (truthyPrim p); cbn; auto).
  - now rewrite missing_credential_recorded.
Qed.

(** On every input but the one of [constructor_throwing_null_sets_neither]
    the initializer does what C3 asks: when it completes and the constructor
    of the client has not thrown [null], exactly one of the client and the
    initialization error is set; and no call of the service changes either
    of them afterwards. *)
Lemma initializer_settles_state (process : ProcessGlobal) :
  (forall key, credential process = Some key ->
               constructorThrows key <> Some null) ->
  outcome (loaded process) = Normal tt ->
  exactlyOneSet (final (loaded process)) = true
  /\ (forall (question : string) (m : Module),
         final (answer question m) = m).
Proof.
  intros Hnot Hrun.
  pose proof (initializer_cases process) as Hcases.
  split; [|intros; apply call_preserves_module].
  destruct (credential process) as [key|]; [|now rewrite Hcases].
  specialize (Hnot key eq_refl).
  destruct (constructorThrows key) as [thrown|]; [|now rewrite Hcases].
  destruct (strictEquals thrown null) eqn:Hnull.
  - apply strictEquals_null in Hnull as ->. now elim Hnot.
  - destruct (Hcases Hrun) as [Hc He].
    unfold exactlyOneSet. now rewrite Hc, He.
Qed.

End InitializerFacts.

(** ** The prompt builder *)

(** C8. The prompt is a function of the question alone: the fixed text
    before, the question as it is, the fixed text after.  So every prompt
    contains its question verbatim and the instructions: five words or
    less, a confident tone, comedic falsehood, plain text. *)
Theorem prompt_embeds_question (question : string) :
  createShortHumorousPrompt question = promptHead ++ question ++ promptTail
  /\ JsString.includes (createShortHumorousPrompt question) question = true
  /\ JsString.includes (createShortHumorousPrompt question)
       "Your answers should be 5 words or less." = true
  /\ JsString.includes (createShortHumorousPrompt question)
       "They should sound confident" = true
  /\ JsString.includes (createShortHumorousPrompt question)
       "blatantly false, misleading, or a complete non-sequitur" = true
  /\ JsString.includes (createShortHumorousPrompt question)
       "Lean heavily towards comedic falsehoods." = true
  /\ JsString.includes (createShortHumorousPrompt question)
       "(5 words or less, hilariously absurd/false, confident tone)" = true
  /\ JsString.includes (createShortHumorousPrompt question)
       "as plain text:" = true.
Proof.
  unfold createShortHumorousPrompt.
  split; [reflexivity|].
  split; [apply includes_iff; exists promptHead, promptTail; reflexivity|].
  repeat split;
    first
      [ apply includes_append_l; vm_compute; reflexivity
      | apply includes_append_r, includes_append_r; vm_compute; reflexivity ].
Qed.

(** ** The specification's examples and the edge cases *)

(** P2: a missing, non-string or blank credential; then every call rejects
    with the recorded error and the provider is never called. *)
Lemma missing_credential_blocks_calls
    (constructorThrows : string -> option JsVal)
    (generateContent : GoogleGenAI -> GenerateContentParameters -> Settled)
    (faultText : Fault -> string)
    (process : ProcessGlobal) (question : string) :
  credential process = None ->
  let m := final (load constructorThrows faultText process) in
  let r := generateShortWittiHumorousAnswer
             generateContent faultText question m in
  outcome r = Throw (errorWith MSG_KEY_MISSING)
  /\ final r = m
  /\ providerCalls (log r) = 0.
Proof.
  intros Hcred. cbv zeta.
  rewrite missing_credential_recorded by assumption. cbn [final].
  repeat split.
Qed.

Example blank_credentials :
  credential ProcessUndefined = None
  /\ credential ProcessWithoutEnv = None
  /\ credential (ProcessEnv undefined) = None
  /\ credential (ProcessEnv (VPrim (PNum 42))) = None
  /\ credential (ProcessEnv (str EmptyString)) = None
  /\ credential (ProcessEnv (str (" " ++ nl ++ "  "))) = None
  /\ credential (ProcessEnv (str " key ")) = Some " key ".
Proof.
  repeat split.
Qed.

(** With neither variable set, the guard of line 46 answers. *)
Lemma unset_module_rejects
    (generateContent : GoogleGenAI -> GenerateContentParameters -> Settled)
    (faultText : Fault -> string) (question : string) :
  generateShortWittiHumorousAnswer generateContent faultText question unloaded
  = {| outcome := Throw (errorWith MSG_NOT_INITIALIZED);
       final := unloaded; log := [] |}.
Proof.
  reflexivity.
Qed.

(** P5 and P6. *)
Example classification_examples :
  let run message :=
    outcome (generateShortWittiHumorousAnswer
               (providerSettling (Rejected (errorWith message)))
               v8Text "Why?" readyModule) in
  run "API key not valid" = Throw (errorWith MSG_INVALID_KEY)
  /\ run "api key NOT valid" = Throw (errorWith MSG_INVALID_KEY)
  /\ run "PERMISSION DENIED: quota" = Throw (errorWith MSG_INVALID_KEY)
  /\ run "Quota exceeded for today" = Throw (errorWith MSG_QUOTA)
  /\ run "quota: model not found" = Throw (errorWith MSG_QUOTA)
  /\ run "Model Not Found" = Throw (errorWith MSG_MODEL_NOT_FOUND)
  /\ run "Some obscure network blip"
     = Throw (errorWith "Some obscure network blip").
Proof.
  repeat split.
Qed.

(** A message that is neither a string nor false: the handler itself
    fails, since such a value has no [toLowerCase]. *)
Example numeric_message_raises_type_error :
  outcome (generateShortWittiHumorousAnswer
             (providerSettling
                (Rejected (VObj PlainObject (Some (PNum 503)))))
             v8Text "Why?" readyModule)
  = Throw (VObj TypeErrorClass
             (Some (PStr "error.message.toLowerCase is not a function"))).
Proof.
  reflexivity.
Qed.

(** A constructor that throws [undefined] makes the module fail to load. *)
Example constructor_throwing_undefined_aborts_load :
  outcome (load (constructorThrowing undefined) v8Text (ProcessEnv (str "k")))
  = Throw (typeError v8Text (ReadOfNullish PUndefined "message")).
Proof.
  reflexivity.
Qed.

(** ** Instances *)

Lemma init_error_short_circuits_witness :
  errorSet failedModule = true
  /\ generateShortWittiHumorousAnswer
       (providerSettling (Fulfilled {| text := str "Obviously." |}))
       v8Text "Why?" failedModule
     = {| outcome := Throw (errorWith MSG_KEY_MISSING);
          final := failedModule; log := [] |}.
Proof.
  split; [reflexivity|].
  exact (init_error_short_circuits
           (providerSettling (Fulfilled {| text := str "Obviously." |}))
           v8Text failedModule "Why?" eq_refl).
Defined.

Lemma provider_error_classified_witness :
  outcome (generateShortWittiHumorousAnswer
             (providerSettling (Rejected (errorWith "api key NOT valid")))
             v8Text "Why?" readyModule)
  = Throw (errorWith MSG_INVALID_KEY).
Proof.
  refine (proj1 (provider_error_classified
                   (providerSettling
                      (Rejected (errorWith "api key NOT valid")))
                   v8Text readyModule {| apiKey := "k" |} "Why?"
                   (errorWith "api key NOT valid") "api key NOT valid"
                   eq_refl eq_refl eq_refl eq_refl _) _).
  - discriminate.
  - left. apply includes_lower_iff. vm_compute. reflexivity.
Defined.

(** C3, where the code departs from it.  With a valid credential and a
    constructor of the client that throws [null], the initializer completes
    with neither a client nor an initialization error: the catch block
    compares the caught [null] with the still unset error, finds them the
    same and records nothing, although it means to record whatever was
    thrown that it did not throw itself (line 22). *)
Lemma constructor_throwing_null_sets_neither :
  let r := load (constructorThrowing null) v8Text (ProcessEnv (str "k")) in
  outcome r = Normal tt
  /\ clientSet (final r) = false
  /\ errorSet (final r) = false
  /\ exactlyOneSet (final r) = false.
Proof.
  repeat split.
Qed.

(** Every other value the constructor can throw is recorded, as the catch
    block means: an instance of [Error] as it is, anything else wrapped. *)
Example constructor_throwing_other_values_sets_error :
  let recorded v :=
    final (load (constructorThrowing v) v8Text (ProcessEnv (str "k"))) in
  recorded (errorWith "boom")
  = {| ai := None; apiKeyInitializationError := errorWith "boom" |}
  /\ recorded (str "boom")
     = {| ai := None;
          apiKeyInitializationError := errorWith MSG_INIT_UNEXPECTED |}
  /\ recorded (VPrim (PBool false))
     = {| ai := None;
          apiKeyInitializationError := errorWith MSG_INIT_UNEXPECTED |}
  /\ recorded (VPrim (PNum 0))
     = {| ai := None;
          apiKeyInitializationError := errorWith MSG_INIT_UNEXPECTED |}
  /\ recorded (VObj PlainObject (Some (PStr "no network")))
     = {| ai := None; apiKeyInitializationError := errorWith "no network" |}.
Proof.
  repeat split.
Qed.

Lemma string_response_is_trimmed_witness :
  outcome (generateShortWittiHumorousAnswer
             (providerSettling
                (Fulfilled {| text := str "  Obviously not.  " |}))
             v8Text "Why?" readyModule)
  = Normal "Obviously not."
  /\ trimmedOf "  Obviously not.  " "Obviously not.".
Proof.
  exact (string_response_is_trimmed
           (providerSettling
              (Fulfilled {| text := str "  Obviously not.  " |}))
           v8Text readyModule {| apiKey := "k" |} "Why?"
           {| text := str "  Obviously not.  " |} "  Obviously not.  "
           eq_refl eq_refl eq_refl eq_refl).
Defined.

Lemma non_string_response_rejected_witness :
  typeof undefined <> "string"
  /\ outcome (generateShortWittiHumorousAnswer
                (providerSettling (Fulfilled {| text := undefined |}))
                v8Text "Why?" readyModule)
     = Throw (errorWith MSG_NOT_TEXT).
Proof.
  split; [discriminate|].
  refine (f_equal outcome
            (proj1 (non_string_response_rejected
                      (providerSettling (Fulfilled {| text := undefined |}))
                      v8Text readyModule {| apiKey := "k" |} "Why?"
                      {| text := undefined |}
                      eq_refl eq_refl eq_refl _))).
  discriminate.
Defined.

Lemma unclassified_message_passes_through_witness :
  outcome (generateShortWittiHumorousAnswer
             (providerSettling
                (Rejected (errorWith "Some obscure network blip")))
             v8Text "Why?" readyModule)
  = Throw (errorWith "Some obscure network blip").
Proof.
  refine (proj1 (unclassified_message_passes_through
                   (providerSettling
                      (Rejected (errorWith "Some obscure network blip")))
                   v8Text readyModule {| apiKey := "k" |} "Why?"
                   (errorWith "Some obscure network blip")
                   "Some obscure network blip"
                   eq_refl eq_refl eq_refl eq_refl _ _ _ _ _));
    try discriminate;
    intros H; apply includes_lower_iff in H; vm_compute in H; discriminate.
Defined.

(** C7 as stated fails: [undefined] has no [message] property, and the
    call rejects with the TypeError of the failed read, not with the
    communication error. *)
Lemma undefined_rejection_raises_type_error :
  let r := generateShortWittiHumorousAnswer
             (providerSettling (Rejected undefined))
             v8Text "Why?" readyModule in
  lacksMessage undefined = true
  /\ outcome r
     = Throw (typeError v8Text (ReadOfNullish PUndefined "message"))
  /\ outcome r <> Throw (errorWith MSG_COMMUNICATION).
Proof.
  repeat split. discriminate.
Qed.

Lemma missing_message_is_communication_error_witness :
  lacksMessage (VObj PlainObject None) = true
  /\ isNullish (VObj PlainObject None) = false
  /\ outcome (generateShortWittiHumorousAnswer
                (providerSettling (Rejected (VObj PlainObject None)))
                v8Text "Why?" readyModule)
     = Throw (errorWith MSG_COMMUNICATION).
Proof.
  split; [reflexivity|]. split; [reflexivity|].
  exact (missing_message_is_communication_error
           (providerSettling (Rejected (VObj PlainObject None)))
           v8Text readyModule {| apiKey := "k" |} "Why?"
           (VObj PlainObject None) eq_refl eq_refl eq_refl eq_refl eq_refl).
Defined.

Lemma falsy_message_is_communication_error_witness :
  truthyPrim (PStr EmptyString) = false
  /\ outcome (generateShortWittiHumorousAnswer
                (providerSettling (Rejected (errorWith EmptyString)))
                v8Text "Why?" readyModule)
     = Throw (errorWith MSG_COMMUNICATION).
Proof.
  split; [reflexivity|].
  exact (falsy_message_is_communication_error
           (providerSettling (Rejected (errorWith EmptyString)))
           v8Text readyModule {| apiKey := "k" |} "Why?"
           ErrorClass (PStr EmptyString) eq_refl eq_refl eq_refl eq_refl).
Defined.

Lemma question_not_validated_witness :
  providerCalls
    (log (generateShortWittiHumorousAnswer
            (providerSettling (Fulfilled {| text := str "42." |}))
            v8Text EmptyString readyModule))
  = 1.
Proof.
  exact (proj1 (proj2 (question_not_validated
                         (providerSettling (Fulfilled {| text := str "42." |}))
                         v8Text readyModule {| apiKey := "k" |} EmptyString
                         eq_refl eq_refl))).
Defined.

(** ** More on the initializer *)

Lemma credential_inv (process : ProcessGlobal) (key : string) :
  credential process = Some key ->
  process = ProcessEnv (str key)
  /\ JsString.isEmpty (JsString.trim key) = false.
Proof.
  unfold credential.
  destruct process as [| |[[| |b|z| |k]|cls msg]]; try discriminate.
  destruct (JsString.isEmpty (JsString.trim k)) eqn:Hk; [discriminate|].
  intros [= ->]. auto.
Qed.

Lemma credential_intro (key : string) :
  JsString.allWhiteSpace key = false ->
  credential (ProcessEnv (str key)) = Some key.
Proof.
  intros Hkey. unfold credential, str.
  destruct (JsString.isEmpty (JsString.trim key)) eqn:Hempty; [|reflexivity].
  apply trim_empty_iff in Hempty. congruence.
Qed.

Lemma credential_inv_blank (process : ProcessGlobal) (key : string) :
  credential process = Some key ->
  process = ProcessEnv (str key) /\ JsString.allWhiteSpace key = false.
Proof.
  intros Hcred. apply credential_inv in Hcred as [-> Hkey].
  split; [reflexivity|].
  destruct (JsString.allWhiteSpace key) eqn:Hall; [|reflexivity].
  apply trim_empty_iff in Hall. congruence.
Qed.

Lemma credential_none_iff (process : ProcessGlobal) :
  credential process = None <->
  forall s, apiKeyFromEnv process = str s -> JsString.allWhiteSpace s = true.
Proof.
  unfold credential, apiKeyFromEnv.
  destruct process as [| |[[| |b|z| |k]|cls msg]];
    try (split; [intros _ s Hs; discriminate | reflexivity]).
  destruct (JsString.isEmpty (JsString.trim k)) eqn:Hk.
  - apply trim_empty_iff in Hk. split; [|reflexivity].
    intros _ s [= <-]. exact Hk.
  - split; [discriminate|]. intros Hall.
    specialize (Hall k eq_refl). apply trim_empty_iff in Hall. congruence.
Qed.

Ltac unfold_initializer :=
  unfold load, initialize, apiKeyFromEnv, construct, readMessage, bind,
    tryCatch, writeInitError, writeAi, readInitError, throw, ret, emit;
  cbn [asString str after app].

Section InitializerEdges.

Set Default Proof Using "Type".

Variable constructorThrows : string -> option JsVal.
Variable generateContent :
  GoogleGenAI -> GenerateContentParameters -> Settled.
Variable faultText : Fault -> string.

Local Abbreviation answer :=
  (generateShortWittiHumorousAnswer generateContent faultText).
Local Abbreviation loaded :=
  (load constructorThrows faultText).

(** The run of the initializer on a valid credential whose constructor
    throws, by what is thrown. *)
Lemma load_constructor_threw
    (process : ProcessGlobal) (key : string) (thrown : JsVal) :
  credential process = Some key ->
  constructorThrows key = Some thrown ->
  loaded process
  = if strictEquals thrown null then
      {| outcome := Normal tt; final := unloaded; log := [] |}
    else if instanceofError thrown then
      {| outcome := Normal tt;
         final := {| ai := None; apiKeyInitializationError := thrown |};
         log := [ConsoleError
                   [str "Failed to initialize GoogleGenAI:";
                    VPrim match getMessage thrown with
                          | inl m => m
                          | inr _ => PUndefined
                          end]] |}
    else
      match getMessage thrown with
      | inr fault =>
          {| outcome := Throw (typeError faultText fault);
             final := unloaded; log := [] |}
      | inl m =>
          let shown := ToString (orElse m (PStr MSG_INIT_UNEXPECTED)) in
          {| outcome := Normal tt;
             final := {| ai := None;
                         apiKeyInitializationError := errorWith shown |};
             log := [ConsoleError
                       [str "Failed to initialize GoogleGenAI:";
                        str shown]] |}
      end.
Proof.
  intros Hcred Hctor.
  apply credential_inv in Hcred as [-> Hkey].
  unfold_initializer. rewrite Hkey, Hctor.
  destruct thrown as [[| |b|z| |s]|[| |] [p|]]; reflexivity.
Qed.

Lemma load_constructor_returned (process : ProcessGlobal) (key : string) :
  credential process = Some key ->
  constructorThrows key = None ->
  loaded process
  = {| outcome := Normal tt;
       final := {| ai := Some {| apiKey := key |};
                   apiKeyInitializationError := null |};
       log := [] |}.
Proof.
  intros Hcred Hctor.
  apply credential_inv in Hcred as [-> Hkey].
  unfold_initializer. rewrite Hkey, Hctor. reflexivity.
Qed.

(** X1. A credential that is not a string, or is white space only, makes
    the initializer record the missing-key error and log it once; the
    constructor of the client plays no part and no client is made. *)
Theorem blank_credential_recorded (process : ProcessGlobal) :
  (forall s, apiKeyFromEnv process = str s ->
             JsString.allWhiteSpace s = true) ->
  loaded process
  = {| outcome := Normal tt;
       final := {| ai := None;
                   apiKeyInitializationError := errorWith MSG_KEY_MISSING |};
       log := [ConsoleError [str "Failed to initialize GoogleGenAI:";
                             str MSG_KEY_MISSING]] |}.
Proof.
  intros Hblank. apply credential_none_iff in Hblank.
  now rewrite missing_credential_recorded.
Qed.

(** X2. The client exists after the initializer exactly when the credential
    is a string that is not blank and the constructor returned; it then
    holds the credential as it was given, white space included, and nothing
    was recorded or logged. *)
Theorem client_made_iff (process : ProcessGlobal) (client : GoogleGenAI) :
  (ai (final (loaded process)) = Some client <->
   process = ProcessEnv (str (apiKey client))
   /\ JsString.allWhiteSpace (apiKey client) = false
   /\ constructorThrows (apiKey client) = None)
  /\ (ai (final (loaded process)) = Some client ->
      loaded process
      = {| outcome := Normal tt;
           final := {| ai := Some client;
                       apiKeyInitializationError := null |};
           log := [] |}).
Proof.
  assert (ai (final (loaded process)) = Some client ->
          credential process = Some (apiKey client)
          /\ constructorThrows (apiKey client) = None) as Hmade.
  { intros Hai.
    destruct (credential process) as [key|] eqn:Hcred.
    - destruct (constructorThrows key) as [thrown|] eqn:Hctor.
      + rewrite (load_constructor_threw process key thrown) in Hai
          by assumption.
        destruct (strictEquals thrown null); [discriminate|].
        destruct (instanceofError thrown); [discriminate|].
        destruct (getMessage thrown); discriminate.
      + rewrite (load_constructor_returned process key) in Hai
          by assumption.
        injection Hai as <-. auto.
    - rewrite missing_credential_recorded in Hai by assumption.
      discriminate. }
  split; [split|].
  - intros Hai. destruct (Hmade Hai) as [Hcred Hctor].
    apply credential_inv_blank in Hcred as [-> Hkey]. auto.
  - intros (-> & Hkey & Hctor).
    rewrite (load_constructor_returned _ (apiKey client))
      by auto using credential_intro.
    destruct client as [key]. reflexivity.
  - intros Hai. destruct (Hmade Hai) as [Hcred Hctor].
    rewrite (load_constructor_returned _ (apiKey client)) by assumption.
    destruct client as [key]. reflexivity.
Qed.

(** X3. When the constructor throws an instance of [Error], that very
    value becomes the initialization error, its message is logged once, and
    every later call rejects with it without reaching the provider. *)
Theorem constructor_error_kept
    (process : ProcessGlobal) (key : string) (thrown : JsVal)
    (question : string) :
  credential process = Some key ->
  constructorThrows key = Some thrown ->
  instanceofError thrown = true ->
  final (loaded process)
  = {| ai := None; apiKeyInitializationError := thrown |}
  /\ (exists message,
         getMessage thrown = inl message
         /\ log (loaded process)
            = [ConsoleError [str "Failed to initialize GoogleGenAI:";
                             VPrim message]])
  /\ answer question (final (loaded process))
     = {| outcome := Throw thrown;
          final := final (loaded process); log := [] |}.
Proof.
  intros Hcred Hctor Herr.
  rewrite (load_constructor_threw process key thrown) by assumption.
  destruct thrown as [p|cls msg]; [discriminate|].
  cbn [strictEquals]. rewrite Herr. cbn [final log].
  split; [reflexivity|]. split; [|reflexivity].
  destruct cls, msg as [m|]; try discriminate; eexists; split; reflexivity.
Qed.

(** X4. When the constructor throws a value that is not an [Error] (and
    not [null] or [undefined]), the initializer records a new error whose
    message is the text of the value's [message] if that counts as true, and
    the fixed text about an unexpected error otherwise. *)
Theorem constructor_value_wrapped
    (process : ProcessGlobal) (key : string) (thrown : JsVal) (m : Prim) :
  credential process = Some key ->
  constructorThrows key = Some thrown ->
  instanceofError thrown = false ->
  getMessage thrown = inl m ->
  loaded process
  = {| outcome := Normal tt;
       final :=
         {| ai := None;
            apiKeyInitializationError :=
              errorWith (if truthyPrim m then ToString m
                         else MSG_INIT_UNEXPECTED) |};
       log := [ConsoleError
                 [str "Failed to initialize GoogleGenAI:";
                  str (if truthyPrim m then ToString m
                       else MSG_INIT_UNEXPECTED)]] |}.
Proof.
  intros Hcred Hctor Herr Hmsg.
  rewrite (load_constructor_threw process key thrown) by assumption.
  rewrite Herr, Hmsg.
  assert (strictEquals thrown null = false) as ->
      by (destruct thrown as [[| |b|z| |s]|cls msg];
          try reflexivity; discriminate).
  unfold orElse. destruct (truthyPrim m); reflexivity.
Qed.

(** X5. The module fails to load exactly when the credential is a string
    that is not blank and the constructor throws [undefined]: the catch
    block then fails on its own read of the message, and nothing is
    recorded or logged. *)
Theorem load_aborts_iff (process : ProcessGlobal) :
  (outcome (loaded process) <> Normal tt <->
   exists key,
     process = ProcessEnv (str key)
     /\ JsString.allWhiteSpace key = false
     /\ constructorThrows key = Some undefined)
  /\ (outcome (loaded process) <> Normal tt ->
      loaded process
      = {| outcome :=
             Throw (typeError faultText (ReadOfNullish PUndefined "message"));
           final := unloaded; log := [] |}).
Proof.
  assert (outcome (loaded process) <> Normal tt ->
          exists key,
            credential process = Some key
            /\ constructorThrows key = Some undefined) as Haborted.
  { intros Hout.
    destruct (credential process) as [key|] eqn:Hcred.
    - destruct (constructorThrows key) as [thrown|] eqn:Hctor.
      + rewrite (load_constructor_threw process key thrown) in Hout
          by assumption.
        exists key.
        destruct thrown as [[| |b|z| |s]|[| |] [p|]];
          try (now elim Hout); auto.
      + rewrite (load_constructor_returned process key) in Hout
          by assumption.
        now elim Hout.
    - rewrite missing_credential_recorded in Hout by assumption.
      now elim Hout. }
  split; [split|].
  - intros Hout. destruct (Haborted Hout) as (key & Hcred & Hctor).
    apply credential_inv_blank in Hcred as [-> Hkey]. eauto.
  - intros (key & -> & Hkey & Hctor).
    rewrite (load_constructor_threw _ key undefined)
      by auto using credential_intro.
    discriminate.
  - intros Hout. destruct (Haborted Hout) as (key & Hcred & Hctor).
    now rewrite (load_constructor_threw process key undefined).
Qed.

(** X6. The initializer never calls the provider, and it writes to the
    console once exactly when it records an error: after it completes, the
    log is empty if no error is set and is the single line with the
    message of the recorded error otherwise. *)
Theorem initializer_logs_what_it_records (process : ProcessGlobal) :
  outcome (loaded process) = Normal tt ->
  providerCalls (log (loaded process)) = 0
  /\ if errorSet (final (loaded process)) then
       exists message,
         getMessage (apiKeyInitializationError (final (loaded process)))
         = inl message
         /\ log (loaded process)
            = [ConsoleError [str "Failed to initialize GoogleGenAI:";
                             VPrim message]]
     else log (loaded process) = [].
Proof.
  intros Hout.
  destruct (credential process) as [key|] eqn:Hcred.
  - destruct (constructorThrows key) as [thrown|] eqn:Hctor.
    + rewrite (load_constructor_threw process key thrown) in Hout |- *
        by assumption.
      destruct thrown as [[| |b|z| |s]|[| |] [p|]];
        try discriminate; cbn; split; try reflexivity; eauto.
    + rewrite (load_constructor_returned process key) by assumption.
      split; reflexivity.
  - rewrite missing_credential_recorded by assumption.
    split; [reflexivity|]. cbn. eauto.
Qed.

(** X7. After the module has loaded, whatever a call rejects with is an
    instance of [Error]. *)
Theorem loaded_rejections_are_errors
    (process : ProcessGlobal) (question : string) (v : JsVal) :
  outcome (loaded process) = Normal tt ->
  outcome (answer question (final (loaded process))) = Throw v ->
  instanceofError v = true.
Proof.
  intros Hout.
  assert (errorSet (final (loaded process)) = true ->
          instanceofError (apiKeyInitializationError (final (loaded process)))
          = true) as Hstored.
  { destruct (credential process) as [key|] eqn:Hcred.
    - destruct (constructorThrows key) as [thrown|] eqn:Hctor.
      + rewrite (load_constructor_threw process key thrown) in Hout |- *
          by assumption.
        destruct thrown as [[| |b|z| |s]|[| |] [p|]];
          try discriminate; cbn; auto.
      + rewrite (load_constructor_returned process key) by assumption.
        discriminate.
    - rewrite missing_credential_recorded by assumption. reflexivity. }
  unfold errorSet in Hstored.
  generalize dependent (final (loaded process)). intros m Hstored.
  unfold_service.
  destruct (truthy (apiKeyInitializationError m)) eqn:Hset.
  - intros [= <-]. auto.
  - clear Hstored. revert v.
    repeat (run; branch); run; intros v Hv; try discriminate;
      injection Hv as <-; reflexivity.
Qed.

End InitializerEdges.

(** ** More on the call *)

Lemma append_inv_head (p a b : string) : p ++ a = p ++ b -> a = b.
Proof.
  induction p as [|c p IH]; simpl; intros H; [exact H|].
  injection H as H. auto.
Qed.

Lemma length_append (a b : string) :
  String.length (a ++ b) = String.length a + String.length b.
Proof.
  induction a as [|c a IH]; simpl; [reflexivity | now rewrite IH].
Qed.

Lemma append_inv_tail (a b t : string) : a ++ t = b ++ t -> a = b.
Proof.
  revert b; induction a as [|c a IH]; intros [|d b] H; simpl in H.
  - reflexivity.
  - apply (f_equal String.length) in H. simpl in H.
    rewrite length_append in H. lia.
  - apply (f_equal String.length) in H. simpl in H.
    rewrite length_append in H. lia.
  - injection H as -> H. f_equal. auto.
Qed.

(** X8. Different questions give different prompts: the question can be
    read back from the prompt. *)
Theorem prompt_determines_question (q q' : string) :
  createShortHumorousPrompt q = createShortHumorousPrompt q' <-> q = q'.
Proof.
  split; [|now intros ->].
  unfold createShortHumorousPrompt. intros H.
  apply append_inv_head in H. now apply append_inv_tail in H.
Qed.

Lemma allWhiteSpace_trim (s : string) :
  JsString.allWhiteSpace s = true -> JsString.trim s = EmptyString.
Proof.
  intros H. apply trim_empty_iff in H.
  destruct (JsString.trim s); [reflexivity | discriminate].
Qed.

(** Take one step at a branch whose scrutinee has no branch inside. *)
Ltac leaf :=
  match goal with
  | |- context [match ?x with _ => _ end] =>
      lazymatch x with
      | context [match _ with _ => _ end] => fail
      | _ => destruct x eqn:?
      end
  end.

Ltac run_all :=
  cbn [after app getMessage newError truthyPrim ToString outcome final log].

Section CallEdges.

Variable generateContent :
  GoogleGenAI -> GenerateContentParameters -> Settled.
Variable faultText : Fault -> string.

Local Abbreviation answer :=
  (generateShortWittiHumorousAnswer generateContent faultText).

(** X9. With no recorded error and no client, every call rejects with the
    error about the client not being initialized; the provider is not
    called and nothing is logged. *)
Theorem no_client_rejects (m : Module) (question : string) :
  errorSet m = false ->
  ai m = None ->
  answer question m
  = {| outcome := Throw (errorWith MSG_NOT_INITIALIZED);
       final := m; log := [] |}.
Proof.
  unfold errorSet. intros Hset Hai.
  unfold_service. rewrite Hset, Hai. reflexivity.
Qed.

(** X10. A call reaches the provider once when there is a client and no
    recorded error, and not at all otherwise: it never retries. *)
Theorem provider_called_once_when_ready (m : Module) (question : string) :
  providerCalls (log (answer question m))
  = if negb (errorSet m) && clientSet m then 1 else 0.
Proof.
  unfold errorSet, clientSet. unfold_service.
  destruct (truthy (apiKeyInitializationError m)); [reflexivity|].
  destruct (ai m) as [client|]; [|reflexivity]. cbn [negb andb].
  repeat (run; branch); run; reflexivity.
Qed.

(** X11. Once the provider has been called, a call that rejects has written
    to the error console exactly once, and a call that resolves has written
    nothing to the console; the warning appears only for a response whose
    text is not a string. *)
Theorem failures_logged_once
    (m : Module) (client : GoogleGenAI) (question : string) :
  errorSet m = false ->
  ai m = Some client ->
  match outcome (answer question m) with
  | Normal _ =>
      log (answer question m) = [ProviderCall client (requestFor question)]
  | Throw _ =>
      consoleErrors (log (answer question m)) = 1
      /\ consoleWarns (log (answer question m))
         = match generateContent client (requestFor question) with
           | Fulfilled _ => 1
           | Rejected _ => 0
           end
  end.
Proof.
  unfold errorSet. intros Hset Hai.
  unfold_service. rewrite Hset, Hai. run.
  repeat (run_all; leaf); run_all; try split; reflexivity.
Qed.

(** X12. A rejection whose message counts as true but is not a string
    makes the handler itself fail: the value has no [toLowerCase], and the
    call rejects with that TypeError. *)
Theorem non_string_message_raises_type_error
    (m : Module) (client : GoogleGenAI) (question : string)
    (reason : JsVal) (p : Prim) :
  errorSet m = false ->
  ai m = Some client ->
  generateContent client (requestFor question) = Rejected reason ->
  getMessage reason = inl p ->
  truthyPrim p = true ->
  typeofPrim p <> "string" ->
  answer question m
  = {| outcome :=
         Throw (typeError faultText
                  (NotAFunction "error.message.toLowerCase"));
       final := m;
       log := [ProviderCall client (requestFor question);
               ConsoleError [str "Error calling Gemini API:"; reason]] |}.
Proof.
  unfold errorSet. intros Hset Hai Hrej Hmsg Hp Htype.
  unfold_service. rewrite Hset, Hai. run.
  unfold requestFor in Hrej. rewrite Hrej. run. rewrite Hmsg. run.
  rewrite Hp.
  destruct p as [| |b|z| |s]; try reflexivity. now elim Htype.
Qed.

(** X13. A rejection with [undefined] or [null] makes the handler fail on
    its read of the message; the call rejects with that TypeError, after
    the one line on the error console. *)
Theorem nullish_rejection_raises_type_error
    (m : Module) (client : GoogleGenAI) (question : string) (p : Prim) :
  errorSet m = false ->
  ai m = Some client ->
  generateContent client (requestFor question) = Rejected (VPrim p) ->
  isNullish (VPrim p) = true ->
  answer question m
  = {| outcome := Throw (typeError faultText (ReadOfNullish p "message"));
       final := m;
       log := [ProviderCall client (requestFor question);
               ConsoleError [str "Error calling Gemini API:"; VPrim p]] |}.
Proof.
  unfold errorSet. intros Hset Hai Hrej Hnull.
  unfold_service. rewrite Hset, Hai. run.
  unfold requestFor in Hrej. rewrite Hrej. run.
  destruct p as [| |b|z| |s]; try discriminate; reflexivity.
Qed.

(** X14. When no initialization error is recorded, whatever a call rejects
    with is an instance of [Error] that carries a string message. *)
Theorem rejections_carry_string_messages
    (m : Module) (question : string) (v : JsVal) :
  errorSet m = false ->
  outcome (answer question m) = Throw v ->
  instanceofError v = true
  /\ exists text, getMessage v = inl (PStr text).
Proof.
  unfold errorSet. intros Hset. unfold_service. rewrite Hset. revert v.
  repeat (run; branch); run; intros v Hv; try discriminate;
    injection Hv as <-; split; try reflexivity; eexists; reflexivity.
Qed.

(** X15. A response that is white space only resolves to the empty string:
    the call does not reject an empty answer. *)
Theorem blank_response_resolves_empty
    (m : Module) (client : GoogleGenAI) (question : string)
    (response : GenerateContentResponse) (s : string) :
  errorSet m = false ->
  ai m = Some client ->
  generateContent client (requestFor question) = Fulfilled response ->
  text response = str s ->
  JsString.allWhiteSpace s = true ->
  outcome (answer question m) = Normal EmptyString.
Proof.
  intros Hset Hai Hful Htext Hall.
  rewrite (fulfilled_with_string
             generateContent faultText m client question response s)
    by assumption.
  cbn [outcome]. now rewrite allWhiteSpace_trim.
Qed.

End CallEdges.

(** ** The page *)

Lemma not_blank_trim (s : string) :
  JsString.allWhiteSpace s = false ->
  JsString.isEmpty (JsString.trim s) = false.
Proof.
  intros H. destruct (JsString.isEmpty (JsString.trim s)) eqn:E.
  - apply trim_empty_iff in E. congruence.
  - reflexivity.
Qed.

Lemma blank_trim (s : string) :
  JsString.allWhiteSpace s = true ->
  JsString.isEmpty (JsString.trim s) = true.
Proof.
  apply trim_empty_iff.
Qed.

(** Which of the module's own messages mention the API key, as the page
    looks for it. *)
Lemma messages_mentioning_key :
  JsString.includes (JsString.toLowerCase MSG_KEY_MISSING) "api key" = true
  /\ JsString.includes (JsString.toLowerCase MSG_INVALID_KEY) "api key"
     = true
  /\ JsString.includes (JsString.toLowerCase MSG_NOT_INITIALIZED) "api key"
     = true
  /\ JsString.includes (JsString.toLowerCase MSG_QUOTA) "api key" = false
  /\ JsString.includes (JsString.toLowerCase MSG_QUOTA) "api_key" = false
  /\ JsString.includes (JsString.toLowerCase MSG_MODEL_NOT_FOUND) "api key"
     = false
  /\ JsString.includes (JsString.toLowerCase MSG_MODEL_NOT_FOUND) "api_key"
     = false.
Proof.
  repeat split; vm_compute; reflexivity.
Qed.

(** What a call throws can always be asked for its message. *)
Lemma rejection_has_message
    (generateContent : GoogleGenAI -> GenerateContentParameters -> Settled)
    (faultText : Fault -> string)
    (m : Module) (question : string) (e : JsVal) :
  outcome (generateShortWittiHumorousAnswer
             generateContent faultText question m) = Throw e ->
  exists p, getMessage e = inl p.
Proof.
  unfold_service.
  destruct (truthy (apiKeyInitializationError m)) eqn:Hset.
  - intros [= <-].
    destruct (apiKeyInitializationError m) as [[| |b|z| |s]|[| |] [p|]];
      try discriminate; eexists; reflexivity.
  - revert e.
    repeat (run; branch); run; intros e He; try discriminate;
      injection He as <-; eexists; reflexivity.
Qed.

(** Without a recorded error, what a call throws has a string message. *)
Lemma ready_rejection_has_text
    (generateContent : GoogleGenAI -> GenerateContentParameters -> Settled)
    (faultText : Fault -> string)
    (m : Module) (question : string) (e : JsVal) :
  errorSet m = false ->
  outcome (generateShortWittiHumorousAnswer
             generateContent faultText question m) = Throw e ->
  exists text, getMessage e = inl (PStr text).
Proof.
  unfold errorSet. intros Hset. unfold_service. rewrite Hset. revert e.
  repeat (run; branch); run; intros e He; try discriminate;
    injection He as <-; eexists; reflexivity.
Qed.

Ltac unfold_page :=
  unfold handleSubmit, handleFetchWittiQuip, handleShareQuip,
    tryCatchFinally, appBind, callService, appReadMessage,
    errorMessageIncludes, setIsLoading, setError, setApiKeyError,
    setCurrentQuip, setInputValue, setShareStatus, setUi, appEmit, appRet,
    appThrow, orElse;
  cbn [appAfter app ui service result shown].

Ltac run_page :=
  cbn [appAfter app ui service result shown inputValue currentQuip isLoading
       error apiKeyError shareStatus statusMessage statusId List.map
       truthyPrim negb JsString.isEmpty].

Tactic Notation "unfold_page" "in" hyp(H) :=
  unfold handleShareQuip, appBind, setShareStatus, setUi, appEmit, appRet,
    appThrow in H;
  cbn [appAfter app ui service result shown] in H.

Tactic Notation "run_page" "in" hyp(H) :=
  cbn [appAfter app ui service result shown shareStatus statusMessage
       statusId] in H.

(** Name the run of the service inside a handler, with the fact that it
    leaves the module variables alone. *)
Ltac name_service_run gc ft q m o l Hrun :=
  let f := fresh "f" in
  let Hf := fresh "Hf" in
  pose proof (call_preserves_module gc ft q m) as Hf;
  destruct (generateShortWittiHumorousAnswer gc ft q m) as [o f l] eqn:Hrun;
  cbn [final] in Hf; subst f.

Section PageFacts.

Variable generateContent :
  GoogleGenAI -> GenerateContentParameters -> Settled.
Variable faultText : Fault -> string.

Local Abbreviation answer :=
  (generateShortWittiHumorousAnswer generateContent faultText).
Local Abbreviation fetch :=
  (handleFetchWittiQuip generateContent faultText).
Local Abbreviation submit :=
  (handleSubmit generateContent faultText).

(** X16. A question that is empty or white space only is not sent: the
    handler only sets the error asking for a question; the service is not
    called and the rest of the state, the previous quip included, stays. *)
Theorem blank_question_not_sent (questionToAsk : string) (s : App) :
  JsString.allWhiteSpace questionToAsk = true ->
  fetch questionToAsk s
  = {| result := Normal tt;
       app := {| ui := {| inputValue := inputValue (ui s);
                          currentQuip := currentQuip (ui s);
                          isLoading := isLoading (ui s);
                          error := PStr MSG_ENTER_QUESTION;
                          apiKeyError := apiKeyError (ui s);
                          shareStatus := shareStatus (ui s) |};
                 service := service s |};
       shown := [] |}.
Proof.
  intros Hblank. unfold_page. rewrite (blank_trim _ Hblank). reflexivity.
Qed.

(** The page after a call that resolved. *)
Lemma fetch_success_state (questionToAsk : string) (s : App) (a : string) :
  JsString.allWhiteSpace questionToAsk = false ->
  outcome (answer questionToAsk (service s)) = Normal a ->
  result (fetch questionToAsk s) = Normal tt
  /\ app (fetch questionToAsk s)
     = {| ui := {| inputValue := EmptyString;
                   currentQuip :=
                     Some {| quipQuestion := questionToAsk;
                             quipAnswer := a |};
                   isLoading := false;
                   error := PNull;
                   apiKeyError := false;
                   shareStatus := shareStatus (ui s) |};
          service := service s |}.
Proof.
  intros Hq. unfold_page. rewrite (not_blank_trim _ Hq). run_page.
  name_service_run generateContent faultText questionToAsk (service s)
    o l Hrun.
  cbn [outcome]. intros ->. split; reflexivity.
Qed.

(** X17. When the service resolves, the page holds the question as it was
    asked together with the answer, the text area is emptied, and no error
    is left; the handler completes. *)
Theorem fetch_success (questionToAsk : string) (s : App) (a : string) :
  JsString.allWhiteSpace questionToAsk = false ->
  outcome (answer questionToAsk (service s)) = Normal a ->
  result (fetch questionToAsk s) = Normal tt
  /\ app (fetch questionToAsk s)
     = {| ui := {| inputValue := EmptyString;
                   currentQuip :=
                     Some {| quipQuestion := questionToAsk;
                             quipAnswer := a |};
                   isLoading := false;
                   error := PNull;
                   apiKeyError := false;
                   shareStatus := shareStatus (ui s) |};
          service := service s |}.
Proof.
  intros Hq Hout. unfold_page. rewrite (not_blank_trim _ Hq). run_page.
  name_service_run generateContent faultText questionToAsk (service s)
    o l Hrun.
  cbn [outcome] in Hout. subst o. split; reflexivity.
Qed.

(** The page after a call that rejected. *)
Lemma fetch_failure_state (questionToAsk : string) (s : App) (e : JsVal) :
  JsString.allWhiteSpace questionToAsk = false ->
  outcome (answer questionToAsk (service s)) = Throw e ->
  exists (message : Prim) (banner : bool),
    getMessage e = inl message
    /\ app (fetch questionToAsk s)
       = {| ui := {| inputValue := inputValue (ui s);
                     currentQuip := None;
                     isLoading := false;
                     error := if truthyPrim message then message
                              else PStr MSG_NO_QUIP;
                     apiKeyError := banner;
                     shareStatus := shareStatus (ui s) |};
            service := service s |}.
Proof.
  intros Hq Hthrow.
  destruct (rejection_has_message _ _ _ _ _ Hthrow) as [message Hmsg].
  exists message.
  unfold_page. rewrite (not_blank_trim _ Hq). run_page.
  name_service_run generateContent faultText questionToAsk (service s)
    o l Hrun.
  cbn [outcome] in Hthrow. subst o. run_page. rewrite Hmsg. run_page.
  destruct message as [| |[|]|z| |[|c text]]; run_page;
    try destruct (Z.eqb z 0); run_page;
    repeat (leaf; run_page); eexists; split; reflexivity.
Qed.

Lemma MSG_NO_QUIP_truthy : truthyPrim (PStr MSG_NO_QUIP) = true.
Proof.
  reflexivity.
Qed.

(** X18. When the service rejects, the page shows the message of the
    rejection, or the fixed text when that message counts as false; the
    previous quip is gone, the text area keeps what was typed and the
    loading flag is down. *)
Theorem fetch_failure (questionToAsk : string) (s : App) (e : JsVal) :
  JsString.allWhiteSpace questionToAsk = false ->
  outcome (answer questionToAsk (service s)) = Throw e ->
  exists message,
    getMessage e = inl message
    /\ error (ui (app (fetch questionToAsk s)))
       = (if truthyPrim message then message else PStr MSG_NO_QUIP)
    /\ currentQuip (ui (app (fetch questionToAsk s))) = None
    /\ inputValue (ui (app (fetch questionToAsk s))) = inputValue (ui s)
    /\ isLoading (ui (app (fetch questionToAsk s))) = false.
Proof.
  intros Hq Hthrow.
  destruct (fetch_failure_state questionToAsk s e Hq Hthrow)
    as (message & banner & Hmsg & ->).
  exists message. repeat split. exact Hmsg.
Qed.

(** X19. After a question that is not blank has been handled, whatever the
    service did and even if the handler itself failed, the loading flag is
    down, the spinner is gone, the module variables are as before, and
    exactly one of the three result blocks is in the page: the quip, the
    error banner or the key banner. *)
Theorem fetch_settles_page (questionToAsk : string) (s : App) :
  JsString.allWhiteSpace questionToAsk = false ->
  isLoading (ui (app (fetch questionToAsk s))) = false
  /\ spinnerShown (ui (app (fetch questionToAsk s))) = false
  /\ resultBlocks (ui (app (fetch questionToAsk s))) = 1
  /\ service (app (fetch questionToAsk s)) = service s.
Proof.
  intros Hq.
  destruct (outcome (answer questionToAsk (service s))) as [a|e] eqn:Hout.
  - destruct (fetch_success_state questionToAsk s a Hq Hout) as [_ ->].
    repeat split.
  - destruct (fetch_failure_state questionToAsk s e Hq Hout)
      as (message & banner & _ & ->).
    unfold spinnerShown, resultBlocks, quipShown, errorBannerShown,
      apiKeyBannerShown.
    cbn [ui service isLoading currentQuip error apiKeyError andb].
    assert (truthyPrim (if truthyPrim message then message
                        else PStr MSG_NO_QUIP) = true) as ->
        by (destruct (truthyPrim message) eqn:E;
            [exact E | exact MSG_NO_QUIP_truthy]).
    destruct banner; repeat split.
Qed.

(** The page after a call that rejected with a string message: the
    handler completes, and the key banner is up exactly when the text shown
    mentions the API key. *)
Lemma fetch_rejected_text
    (questionToAsk : string) (s : App) (e : JsVal) (t : string) :
  JsString.allWhiteSpace questionToAsk = false ->
  outcome (answer questionToAsk (service s)) = Throw e ->
  getMessage e = inl (PStr t) ->
  let told := if JsString.isEmpty t then MSG_NO_QUIP else t in
  result (fetch questionToAsk s) = Normal tt
  /\ error (ui (app (fetch questionToAsk s))) = PStr told
  /\ apiKeyError (ui (app (fetch questionToAsk s)))
     = JsString.includes (JsString.toLowerCase told) "api key"
       || JsString.includes (JsString.toLowerCase told) "api_key".
Proof.
  intros Hq Hthrow Hmsg.
  unfold_page. rewrite (not_blank_trim _ Hq). run_page.
  name_service_run generateContent faultText questionToAsk (service s)
    o l Hrun.
  cbn [outcome] in Hthrow. subst o. run_page. rewrite Hmsg. run_page.
  destruct t as [|c t]; run_page;
    repeat (leaf; run_page); repeat split; reflexivity.
Qed.

Lemma fetch_rejected_nonempty
    (questionToAsk : string) (s : App) (e : JsVal) (t : string) :
  JsString.allWhiteSpace questionToAsk = false ->
  outcome (answer questionToAsk (service s)) = Throw e ->
  getMessage e = inl (PStr t) ->
  JsString.isEmpty t = false ->
  error (ui (app (fetch questionToAsk s))) = PStr t
  /\ apiKeyError (ui (app (fetch questionToAsk s)))
     = JsString.includes (JsString.toLowerCase t) "api key"
       || JsString.includes (JsString.toLowerCase t) "api_key".
Proof.
  intros Hq Hthrow Hmsg Ht.
  destruct (fetch_rejected_text questionToAsk s e t Hq Hthrow Hmsg)
    as (_ & He & Hb).
  rewrite Ht in He, Hb. auto.
Qed.

(** X20. With no initialization error recorded, the handler of the page
    always completes: whatever the service rejects with, the page can show
    it. *)
Theorem fetch_completes_when_no_init_error
    (questionToAsk : string) (s : App) :
  errorSet (service s) = false ->
  result (fetch questionToAsk s) = Normal tt.
Proof.
  intros Hset.
  destruct (JsString.allWhiteSpace questionToAsk) eqn:Hq.
  - unfold_page. rewrite (blank_trim _ Hq). reflexivity.
  - destruct (outcome (answer questionToAsk (service s))) as [a|e] eqn:Hout.
    + now destruct (fetch_success_state questionToAsk s a Hq Hout).
    + destruct (ready_rejection_has_text _ _ _ _ _ Hset Hout) as [t Ht].
      now destruct (fetch_rejected_text questionToAsk s e t Hq Hout Ht).
Qed.

(** X21. When the provider rejects with a string message, the key banner
    is up afterwards exactly when the message contains, case ignored,
    [api key not valid] or [permission denied], or when it contains neither
    [quota] nor [model not found] and mentions [api key] or [api_key]. *)
Theorem key_banner_after_provider_error
    (questionToAsk : string) (s : App) (client : GoogleGenAI)
    (reason : JsVal) (t : string) :
  JsString.allWhiteSpace questionToAsk = false ->
  errorSet (service s) = false ->
  ai (service s) = Some client ->
  generateContent client (requestFor questionToAsk) = Rejected reason ->
  getMessage reason = inl (PStr t) ->
  t <> EmptyString ->
  apiKeyError (ui (app (fetch questionToAsk s))) = true <->
  (occursIgnoringCase "api key not valid" t
   \/ occursIgnoringCase "permission denied" t)
  \/ (~ occursIgnoringCase "quota" t
      /\ ~ occursIgnoringCase "model not found" t
      /\ (occursIgnoringCase "api key" t
          \/ occursIgnoringCase "api_key" t)).
Proof.
  intros Hq Hset Hai Hrej Hmsg Ht.
  pose proof (rejected_with_message generateContent faultText
                (service s) client questionToAsk reason t
                Hset Hai Hrej Hmsg Ht) as Hrun.
  apply (f_equal outcome) in Hrun. cbn [outcome] in Hrun.
  destruct messages_mentioning_key as (_ & Hk & _ & Hq1 & Hq2 & Hm1 & Hm2).
  rewrite <- !includes_lower_iff.
  destruct (JsString.includes (JsString.toLowerCase t) "api key not valid")
    eqn:Ha;
    destruct (JsString.includes (JsString.toLowerCase t) "permission denied")
      eqn:Hb;
    cbn [orb] in Hrun;
    try (destruct (fetch_rejected_nonempty questionToAsk s _ MSG_INVALID_KEY
                     Hq Hrun eq_refl eq_refl) as (_ & ->);
         rewrite Hk; cbn [orb]; intuition congruence).
  destruct (JsString.includes (JsString.toLowerCase t) "quota") eqn:Hc.
  { destruct (fetch_rejected_nonempty questionToAsk s _ MSG_QUOTA
                Hq Hrun eq_refl eq_refl) as (_ & ->).
    rewrite Hq1, Hq2. cbn [orb].
    intuition discriminate. }
  destruct (JsString.includes (JsString.toLowerCase t) "model not found")
    eqn:Hd.
  { destruct (fetch_rejected_nonempty questionToAsk s _ MSG_MODEL_NOT_FOUND
                Hq Hrun eq_refl eq_refl) as (_ & ->).
    rewrite Hm1, Hm2. cbn [orb].
    intuition discriminate. }
  destruct (fetch_rejected_nonempty questionToAsk s _ t Hq Hrun eq_refl
              (nonempty_not_isEmpty t Ht)) as (_ & ->).
  destruct (JsString.includes (JsString.toLowerCase t) "api key");
    destruct (JsString.includes (JsString.toLowerCase t) "api_key");
    cbn [orb]; intuition discriminate.
Qed.

(** X22. When the submit button is enabled and the service has a client
    and no recorded error, submitting the form calls the provider exactly
    once, with the prompt for the text as it was typed, untrimmed. *)
Theorem enabled_submit_reaches_provider (s : App) (client : GoogleGenAI) :
  submitDisabled (ui s) = false ->
  errorSet (service s) = false ->
  ai (service s) = Some client ->
  List.filter isLoggedProviderCall (shown (submit s))
  = [Logged (ProviderCall client (requestFor (inputValue (ui s))))].
Proof.
  unfold submitDisabled, errorSet. intros Hdis Hset Hai.
  apply orb_false_iff in Hdis as [_ Hq].
  unfold_page. rewrite Hq. run_page.
  unfold_service. rewrite Hset, Hai. run.
  repeat (run_all; run_page; leaf); run_all; run_page; reflexivity.
Qed.

End PageFacts.

(** ** The page and the initializer together *)

(** X23. When the credential is missing, not a string or blank, asking any
    question that is not blank ends with the key banner up instead of the
    form, the missing-key message as the error, and no call of the
    provider. *)
Theorem missing_credential_shows_key_banner
    (constructorThrows : string -> option JsVal)
    (generateContent : GoogleGenAI -> GenerateContentParameters -> Settled)
    (faultText : Fault -> string)
    (process : ProcessGlobal) (u : UiState) (questionToAsk : string) :
  credential process = None ->
  JsString.allWhiteSpace questionToAsk = false ->
  let r := handleFetchWittiQuip generateContent faultText questionToAsk
             {| ui := u;
                service := final (load constructorThrows faultText process) |}
  in
  error (ui (app r)) = PStr MSG_KEY_MISSING
  /\ apiKeyBannerShown (ui (app r)) = true
  /\ formShown (ui (app r)) = false
  /\ errorBannerShown (ui (app r)) = false
  /\ List.filter isLoggedProviderCall (shown r) = [].
Proof.
  intros Hcred Hq. cbv zeta.
  rewrite missing_credential_recorded by assumption. cbn [final].
  destruct messages_mentioning_key as (Hk & _).
  split; [|split; [|split; [|split]]].
  5:{ unfold_page. rewrite (not_blank_trim _ Hq). reflexivity. }
  all: destruct (fetch_rejected_nonempty
                   generateContent faultText questionToAsk
                   {| ui := u; service := failedModule |}
                   (errorWith MSG_KEY_MISSING) MSG_KEY_MISSING
                   Hq eq_refl eq_refl eq_refl) as (He & Hb);
    rewrite Hk in Hb; cbn [orb] in Hb;
    unfold apiKeyBannerShown, formShown, errorBannerShown;
    rewrite ?He, ?Hb; reflexivity.
Qed.

(** ** Sharing a quip *)

Section ShareFacts.

Variable faultText : Fault -> string.
Variable navigatorShare : option (ShareData -> Settlement).
Variable clipboardWriteText : option (string -> Settlement).
Variable locationHref : string.

Local Abbreviation shareQuip :=
  (handleShareQuip faultText navigatorShare clipboardWriteText locationHref).

(** The state of the page with another share status. *)
Local Abbreviation withStatus s status :=
  {| ui := {| inputValue := inputValue (ui s);
              currentQuip := currentQuip (ui s);
              isLoading := isLoading (ui s);
              error := error (ui s);
              apiKeyError := apiKeyError (ui s);
              shareStatus := status |};
     service := service s |}.

(** The page after the share handler: the status alone can have changed,
    and it is one of five. *)
Lemma share_outcomes (question content : string) (s : App) :
  exists status,
    app (shareQuip question content s) = withStatus s status
    /\ (status = {| statusMessage := EmptyString; statusId := None |}
        \/ exists text,
             status = {| statusMessage := text;
                         statusId := Some (quipId question content) |}
             /\ (text = "Share failed" \/ text = "Copied!"
                 \/ text = "Copy failed" \/ text = "Share N/A")).
Proof.
  unfold_page.
  destruct navigatorShare as [share|].
  - run_page. destruct (share _) as [|err]; run_page.
    + eexists; split; [reflexivity | auto].
    + destruct (getName err) as [name|fault]; run_page.
      * destruct (primStrictEquals name (PStr "AbortError")); run_page;
          eexists; split; try reflexivity; eauto 10.
      * eexists; split; [reflexivity | auto].
  - destruct clipboardWriteText as [writeText|]; run_page.
    + destruct (writeText _) as [|err]; run_page;
        eexists; split; try reflexivity; eauto 10.
    + eexists; split; try reflexivity; eauto 10.
Qed.

(** X24. Sharing changes nothing of the page but the share status, leaves
    the module variables alone, and sets the status either to the cleared
    one or to one of four messages under the id of the quip shared. *)
Theorem share_touches_only_status (question content : string) (s : App) :
  exists status,
    app (shareQuip question content s) = withStatus s status
    /\ (status = {| statusMessage := EmptyString; statusId := None |}
        \/ exists text,
             status = {| statusMessage := text;
                         statusId := Some (quipId question content) |}
             /\ (text = "Share failed" \/ text = "Copied!"
                 \/ text = "Copy failed" \/ text = "Share N/A")).
Proof.
  unfold_page.
  destruct navigatorShare as [share|]; [|destruct clipboardWriteText as [w|]];
    run_page.
  - destruct (share _) as [|err]; run_page;
      [|destruct (getName err) as [name|fault]; run_page;
        [destruct (primStrictEquals name (PStr "AbortError")); run_page|]];
      eexists; (split; [reflexivity|]); eauto 10.
  - destruct (w _) as [|err]; run_page;
      eexists; (split; [reflexivity|]); eauto 10.
  - eexists; (split; [reflexivity|]); eauto 10.
Qed.

(** X25. When the browser has [navigator.share], the share sheet is opened
    once, with the fixed title, the text of the quip and the address of the
    page, and the clipboard is never written, not even when sharing
    fails. *)
Theorem share_prefers_native
    (question content : string) (s : App)
    (share : ShareData -> Settlement) :
  navigatorShare = Some share ->
  List.filter isNativeShare (shown (shareQuip question content s))
  = [NativeShare {| title := "WITTI: My WITTI Quip";
                    sharedText := shareTextOf question content;
                    url := locationHref |}]
  /\ List.filter isClipboardWrite (shown (shareQuip question content s)) = [].
Proof.
  intros Hshare. unfold_page. rewrite Hshare. run_page.
  destruct (share _) as [|err]; run_page; [split; reflexivity|].
  destruct (getName err) as [name|fault]; run_page;
    [destruct (primStrictEquals name (PStr "AbortError")); run_page|];
    split; reflexivity.
Qed.

(** X26. A failed native share is reported as [Share failed] under the id
    of the quip, unless the rejection is named [AbortError] (the user
    closed the sheet), which leaves the status cleared. *)
Theorem native_share_failure
    (question content : string) (s : App)
    (share : ShareData -> Settlement) (err : Caught) (name : Prim) :
  navigatorShare = Some share ->
  share {| title := "WITTI: My WITTI Quip";
           sharedText := shareTextOf question content;
           url := locationHref |} = Failed err ->
  getName err = inl name ->
  result (shareQuip question content s) = Normal tt
  /\ shareStatus (ui (app (shareQuip question content s)))
     = if primStrictEquals name (PStr "AbortError")
       then {| statusMessage := EmptyString; statusId := None |}
       else {| statusMessage := "Share failed";
               statusId := Some (quipId question content) |}.
Proof.
  intros Hshare Hfail Hname. unfold_page. rewrite Hshare. run_page.
  rewrite Hfail. run_page. rewrite Hname.
  destruct (primStrictEquals name (PStr "AbortError")); split; reflexivity.
Qed.

(** When the status is [Copied!]. *)
Lemma copied_iff_state (question content : string) (s : App) :
  statusMessage (shareStatus (ui (app (shareQuip question content s))))
  = "Copied!" <->
  navigatorShare = None
  /\ exists writeText,
       clipboardWriteText = Some writeText
       /\ writeText (shareTextOf question content) = Done.
Proof.
  unfold_page.
  destruct navigatorShare as [share|].
  - run_page. split; [|intros [? _]; discriminate].
    destruct (share _) as [|err]; run_page; [discriminate|].
    destruct (getName err) as [name|fault]; run_page;
      [destruct (primStrictEquals name (PStr "AbortError")); run_page|];
      discriminate.
  - destruct clipboardWriteText as [writeText|]; run_page.
    + destruct (writeText (shareTextOf question content)) eqn:Hw; run_page.
      * split; [eauto | reflexivity].
      * split; [discriminate|].
        intros (_ & w & [= <-] & Hdone). congruence.
    + split; [discriminate|]. intros (_ & w & Hnone & _). discriminate.
Qed.

(** X27. The status is [Copied!] after sharing exactly when the browser has
    no [navigator.share], has a clipboard, and the write of the quip's text
    succeeded. *)
Theorem copied_iff (question content : string) (s : App) :
  statusMessage (shareStatus (ui (app (shareQuip question content s))))
  = "Copied!" <->
  navigatorShare = None
  /\ exists writeText,
       clipboardWriteText = Some writeText
       /\ writeText (shareTextOf question content) = Done.
Proof.
  split.
  - intros Hcopied. unfold_page in Hcopied.
    destruct navigatorShare as [share|]; run_page in Hcopied.
    + destruct (share _) as [|err]; run_page in Hcopied; [discriminate|].
      destruct (getName err) as [name|fault]; run_page in Hcopied;
        [destruct (primStrictEquals name (PStr "AbortError"));
         run_page in Hcopied|];
        discriminate.
    + split; [reflexivity|].
      destruct clipboardWriteText as [w|]; run_page in Hcopied;
        [|discriminate].
      exists w. split; [reflexivity|].
      destruct (w (shareTextOf question content)); run_page in Hcopied;
        [reflexivity | discriminate].
  - intros (Hshare & w & Hclip & Hdone).
    unfold_page. rewrite Hshare, Hclip. run_page.
    rewrite Hdone. reflexivity.
Qed.

(** X28. After sharing, the share button of that quip is disabled exactly
    when the page is loading or the text was copied: a failed or an
    unavailable share can be tried again, a finished copy cannot until the
    status is cleared. *)
Theorem share_button_after_sharing (question content : string) (s : App) :
  shareDisabled (ui (app (shareQuip question content s)))
    {| quipQuestion := question; quipAnswer := content |} = true <->
  isLoading (ui s) = true
  \/ (navigatorShare = None
      /\ exists writeText,
           clipboardWriteText = Some writeText
           /\ writeText (shareTextOf question content) = Done).
Proof.
  rewrite <- (copied_iff_state question content s).
  destruct (share_outcomes question content s) as (status & -> & Hstatus).
  unfold shareDisabled, statusIsFor.
  rewrite orb_true_iff, andb_true_iff, String.eqb_eq.
  destruct Hstatus as [-> | (text & -> & _)];
    cbn [ui isLoading shareStatus quipQuestion quipAnswer statusMessage
         statusId].
  - split; (intros [H|H]; [left; exact H|]).
    + destruct H as [H _]. discriminate H.
    + discriminate H.
  - rewrite String.eqb_refl. tauto.
Qed.

End ShareFacts.

(** ** Instances of the further properties *)

Lemma blank_credential_recorded_witness :
  final (load (constructorThrowing (errorWith "boom")) v8Text blankProcess)
  = failedModule.
Proof.
  refine (f_equal final
            (blank_credential_recorded
               (constructorThrowing (errorWith "boom")) v8Text
               blankProcess _)).
  intros s [= <-]. reflexivity.
Defined.

Lemma constructor_error_kept_witness :
  final (load (constructorThrowing (errorWith "boom")) v8Text keyProcess)
  = {| ai := None; apiKeyInitializationError := errorWith "boom" |}.
Proof.
  exact (proj1 (constructor_error_kept
                  (constructorThrowing (errorWith "boom"))
                  (providerSettling (Rejected undefined)) v8Text
                  keyProcess " key " (errorWith "boom") "Why?"
                  eq_refl eq_refl eq_refl)).
Defined.

Lemma constructor_value_wrapped_witness :
  final (load (constructorThrowing (str "boom")) v8Text keyProcess)
  = {| ai := None;
       apiKeyInitializationError := errorWith MSG_INIT_UNEXPECTED |}.
Proof.
  exact (f_equal final
           (constructor_value_wrapped
              (constructorThrowing (str "boom")) v8Text
              keyProcess " key " (str "boom") PUndefined
              eq_refl eq_refl eq_refl eq_refl)).
Defined.

Lemma initializer_logs_what_it_records_witness :
  providerCalls
    (log (load (constructorThrowing (str "boom")) v8Text keyProcess)) = 0.
Proof.
  exact (proj1 (initializer_logs_what_it_records
                  (constructorThrowing (str "boom")) v8Text
                  keyProcess eq_refl)).
Defined.

Lemma loaded_rejections_are_errors_witness :
  instanceofError (errorWith MSG_KEY_MISSING) = true.
Proof.
  exact (loaded_rejections_are_errors
           constructorReturns (providerSettling (Rejected undefined)) v8Text
           blankProcess "Why?" (errorWith MSG_KEY_MISSING)
           eq_refl eq_refl).
Defined.

Lemma no_client_rejects_witness :
  outcome (generateShortWittiHumorousAnswer
             (providerSettling (Fulfilled {| text := str "No." |}))
             v8Text "Why?" unloaded)
  = Throw (errorWith MSG_NOT_INITIALIZED).
Proof.
  exact (f_equal outcome
           (no_client_rejects
              (providerSettling (Fulfilled {| text := str "No." |}))
              v8Text unloaded "Why?" eq_refl eq_refl)).
Defined.

Lemma failures_logged_once_witness :
  consoleErrors
    (log (generateShortWittiHumorousAnswer
            (providerSettling (Fulfilled {| text := undefined |}))
            v8Text "Why?" readyModule)) = 1
  /\ consoleWarns
       (log (generateShortWittiHumorousAnswer
               (providerSettling (Fulfilled {| text := undefined |}))
               v8Text "Why?" readyModule)) = 1.
Proof.
  exact (failures_logged_once
           (providerSettling (Fulfilled {| text := undefined |}))
           v8Text readyModule {| apiKey := "k" |} "Why?" eq_refl eq_refl).
Defined.

Lemma non_string_message_raises_type_error_witness :
  outcome (generateShortWittiHumorousAnswer
             (providerSettling
                (Rejected (VObj PlainObject (Some (PNum 503)))))
             v8Text "Why?" readyModule)
  = Throw (typeError v8Text (NotAFunction "error.message.toLowerCase")).
Proof.
  refine (f_equal outcome
            (non_string_message_raises_type_error
               (providerSettling
                  (Rejected (VObj PlainObject (Some (PNum 503)))))
               v8Text readyModule {| apiKey := "k" |} "Why?"
               (VObj PlainObject (Some (PNum 503))) (PNum 503)
               eq_refl eq_refl eq_refl eq_refl eq_refl _)).
  discriminate.
Defined.

Lemma nullish_rejection_raises_type_error_witness :
  outcome (generateShortWittiHumorousAnswer
             (providerSettling (Rejected null)) v8Text "Why?" readyModule)
  = Throw (typeError v8Text (ReadOfNullish PNull "message")).
Proof.
  exact (f_equal outcome
           (nullish_rejection_raises_type_error
              (providerSettling (Rejected null)) v8Text
              readyModule {| apiKey := "k" |} "Why?" PNull
              eq_refl eq_refl eq_refl eq_refl)).
Defined.

Lemma rejections_carry_string_messages_witness :
  instanceofError (errorWith MSG_QUOTA) = true
  /\ exists text, getMessage (errorWith MSG_QUOTA) = inl (PStr text).
Proof.
  exact (rejections_carry_string_messages
           (providerSettling (Rejected (errorWith "Quota exceeded")))
           v8Text readyModule "Why?" (errorWith MSG_QUOTA)
           eq_refl eq_refl).
Defined.

Lemma blank_response_resolves_empty_witness :
  outcome (generateShortWittiHumorousAnswer
             (providerSettling (Fulfilled {| text := str "   " |}))
             v8Text "Why?" readyModule)
  = Normal EmptyString.
Proof.
  exact (blank_response_resolves_empty
           (providerSettling (Fulfilled {| text := str "   " |}))
           v8Text readyModule {| apiKey := "k" |} "Why?"
           {| text := str "   " |} "   "
           eq_refl eq_refl eq_refl eq_refl eq_refl).
Defined.

Lemma blank_question_not_sent_witness :
  error (ui (app (handleFetchWittiQuip
                    (providerSettling (Fulfilled {| text := str "No." |}))
                    v8Text "  " (startPage readyModule "  "))))
  = PStr MSG_ENTER_QUESTION.
Proof.
  exact (f_equal (fun r => error (ui (app r)))
           (blank_question_not_sent
              (providerSettling (Fulfilled {| text := str "No." |}))
              v8Text "  " (startPage readyModule "  ") eq_refl)).
Defined.

Lemma fetch_success_witness :
  currentQuip
    (ui (app (handleFetchWittiQuip
                (providerSettling (Fulfilled {| text := str " No. " |}))
                v8Text "Why?" (startPage readyModule "Why?"))))
  = Some {| quipQuestion := "Why?"; quipAnswer := "No." |}.
Proof.
  exact (f_equal (fun a => currentQuip (ui a))
           (proj2 (fetch_success
                     (providerSettling (Fulfilled {| text := str " No. " |}))
                     v8Text "Why?" (startPage readyModule "Why?") "No."
                     eq_refl eq_refl))).
Defined.

Lemma fetch_failure_witness :
  exists message,
    getMessage (errorWith MSG_QUOTA) = inl message
    /\ error (ui (app (handleFetchWittiQuip
                         (providerSettling (Rejected (errorWith "quota")))
                         v8Text "Why?" (startPage readyModule "Why?"))))
       = (if truthyPrim message then message else PStr MSG_NO_QUIP)
    /\ currentQuip
         (ui (app (handleFetchWittiQuip
                     (providerSettling (Rejected (errorWith "quota")))
                     v8Text "Why?" (startPage readyModule "Why?"))))
       = None
    /\ inputValue
         (ui (app (handleFetchWittiQuip
                     (providerSettling (Rejected (errorWith "quota")))
                     v8Text "Why?" (startPage readyModule "Why?"))))
       = "Why?"
    /\ isLoading
         (ui (app (handleFetchWittiQuip
                     (providerSettling (Rejected (errorWith "quota")))
                     v8Text "Why?" (startPage readyModule "Why?"))))
       = false.
Proof.
  exact (fetch_failure
           (providerSettling (Rejected (errorWith "quota")))
           v8Text "Why?" (startPage readyModule "Why?")
           (errorWith MSG_QUOTA) eq_refl eq_refl).
Defined.

Lemma fetch_settles_page_witness :
  resultBlocks
    (ui (app (handleFetchWittiQuip
                (providerSettling (Rejected undefined))
                v8Text "Why?" (startPage readyModule "Why?"))))
  = 1.
Proof.
  exact (proj1 (proj2 (proj2 (fetch_settles_page
                                (providerSettling (Rejected undefined))
                                v8Text "Why?" (startPage readyModule "Why?")
                                eq_refl)))).
Defined.

Lemma fetch_completes_when_no_init_error_witness :
  result (handleFetchWittiQuip
            (providerSettling (Rejected undefined))
            v8Text "Why?" (startPage readyModule "Why?"))
  = Normal tt.
Proof.
  exact (fetch_completes_when_no_init_error
           (providerSettling (Rejected undefined))
           v8Text "Why?" (startPage readyModule "Why?") eq_refl).
Defined.

Lemma key_banner_after_provider_error_witness :
  apiKeyError
    (ui (app (handleFetchWittiQuip
                (providerSettling (Rejected (errorWith "Permission denied")))
                v8Text "Why?" (startPage readyModule "Why?"))))
  = true.
Proof.
  refine (proj2 (key_banner_after_provider_error
                   (providerSettling
                      (Rejected (errorWith "Permission denied")))
                   v8Text "Why?" (startPage readyModule "Why?")
                   {| apiKey := "k" |} (errorWith "Permission denied")
                   "Permission denied"
                   eq_refl eq_refl eq_refl eq_refl eq_refl _) _).
  - discriminate.
  - left. right. apply includes_lower_iff. vm_compute. reflexivity.
Defined.

Lemma enabled_submit_reaches_provider_witness :
  List.filter isLoggedProviderCall
    (shown (handleSubmit
              (providerSettling (Fulfilled {| text := str "No." |}))
              v8Text (startPage readyModule " Why? ")))
  = [Logged (ProviderCall {| apiKey := "k" |} (requestFor " Why? "))].
Proof.
  exact (enabled_submit_reaches_provider
           (providerSettling (Fulfilled {| text := str "No." |}))
           v8Text (startPage readyModule " Why? ") {| apiKey := "k" |}
           eq_refl eq_refl eq_refl).
Defined.

Lemma missing_credential_shows_key_banner_witness :
  apiKeyBannerShown
    (ui (app (handleFetchWittiQuip
                (providerSettling (Fulfilled {| text := str "No." |}))
                v8Text "Why?"
                {| ui := initialUi;
                   service := final (load constructorReturns v8Text
                                       ProcessUndefined) |})))
  = true.
Proof.
  exact (proj1 (proj2 (missing_credential_shows_key_banner
                         constructorReturns
                         (providerSettling
                            (Fulfilled {| text := str "No." |}))
                         v8Text ProcessUndefined initialUi "Why?"
                         eq_refl eq_refl))).
Defined.

Lemma share_prefers_native_witness :
  List.filter isClipboardWrite
    (shown (handleShareQuip
              v8Text
              (Some (settling (Failed (CaughtObject (PStr "NotAllowedError")))))
              (Some (settling Done))
              "https://witti.example/" "Why?" "No."
              (startPage readyModule EmptyString)))
  = [].
Proof.
  exact (proj2 (share_prefers_native
                  v8Text
                  (Some (settling
                           (Failed (CaughtObject (PStr "NotAllowedError")))))
                  (Some (settling Done))
                  "https://witti.example/" "Why?" "No."
                  (startPage readyModule EmptyString)
                  (settling (Failed (CaughtObject (PStr "NotAllowedError"))))
                  eq_refl)).
Defined.

Lemma native_share_failure_witness :
  shareStatus
    (ui (app (handleShareQuip
                v8Text
                (Some (settling (Failed (CaughtObject (PStr "AbortError")))))
                None "https://witti.example/" "Why?" "No."
                (startPage readyModule EmptyString))))
  = {| statusMessage := EmptyString; statusId := None |}.
Proof.
  exact (proj2 (native_share_failure
                  v8Text
                  (Some (settling (Failed (CaughtObject (PStr "AbortError")))))
                  None "https://witti.example/" "Why?" "No."
                  (startPage readyModule EmptyString)
                  (settling (Failed (CaughtObject (PStr "AbortError"))))
                  (CaughtObject (PStr "AbortError")) (PStr "AbortError")
                  eq_refl eq_refl eq_refl)).
Defined.


(** ** Numbers as messages *)

(** What [String(n)] gives for integers, small and large. *)
Example number_texts :
  JsNumber.toString 0 = "0"
  /\ JsNumber.toString 503 = "503"
  /\ JsNumber.toString (-42) = "-42"
  /\ JsNumber.toString 9007199254740991 = "9007199254740991"
  /\ JsNumber.toString (2 ^ 64) = "18446744073709552000"
  /\ JsNumber.toString (10 ^ 20) = "100000000000000000000"
  /\ JsNumber.toString (10 ^ 21) = "1e+21"
  /\ JsNumber.toString (2 ^ 70) = "1.1805916207174113e+21"
  /\ JsNumber.toString (10 ^ 23) = "1e+23"
  /\ JsNumber.toString (- 10 ^ 21) = "-1e+21".
Proof.
  repeat split; vm_compute; reflexivity.
Qed.

(** A constructor that throws a plain object whose message is the number
    1e21: the initializer records [new Error("1e+21")]. *)
Example constructor_numeric_message :
  final (load (constructorThrowing (VObj PlainObject (Some (PNum (10 ^ 21)))))
           v8Text (ProcessEnv (str "k")))
  = {| ai := None; apiKeyInitializationError := errorWith "1e+21" |}.
Proof.
  vm_compute. reflexivity.
Qed.
